(** * ntfy-bot: the subscription bridge between a chat platform and ntfy topics

    A shallow embedding of the Go sources (packages [util], [client], [config]
    and [bot]; of the revisions of [bot/bot.go] the one that has the
    [publish] command) and the properties of the subscription registry, the
    stream connector, the message router and the command dispatcher.

    Conventions.
    - A Go [string] is a Rocq [string] (a sequence of bytes).
    - A Go [error] is [option string]: [None] is [nil], [Some msg] an error
      whose [Error()] text is [msg].
    - A Go [map[string]V] is a [gmap string V]; a slice is a [list].
    - Calls into the chat adapter ([conn]) and HTTP requests are recorded in
      the order the code issues them; what the outside world answers is an
      argument of the model.
    - A [*client.Message] is the record it points to.  The nil pointer, to
      which a stream line [null] decodes, is no record; the router's loop
      takes it as the [None] of an [option].
    - [http.NewRequest] is taken to return a request.  For a URL that does
      not parse it returns nil, its error is dropped, and the code stops with
      a nil dereference; [registry.plainURL] is a condition under which the
      URL parses. *)

From Stdlib Require Import String Ascii List ZArith Lia Bool.
From stdpp Require Import base option list gmap strings pretty.

Import ListNotations.
Local Open Scope string_scope.
Local Open Scope list_scope.

Definition error := option string.

(** ** The parts of Go's standard library the program calls *)

Module Go.

(** The ASCII white space of [strings.Fields] (its [asciiSpace] table):
    tab, line feed, vertical tab, form feed, carriage return, space.  On
    text without bytes above 127, which is all this development evaluates
    it on, [strings.Fields] splits around runs of exactly these; on other
    text it also splits at the Unicode spaces.  No general statement below
    depends on where a line is split. *)
Definition isSpace (a : ascii) : bool :=
  match nat_of_ascii a with
  | 9 | 10 | 11 | 12 | 13 | 32 => true
  | _ => false
  end.

(** [fieldsFrom cur s]: [cur] is the field being read ([None] between
    fields). *)
Fixpoint fieldsFrom (cur : option string) (s : string) : list string :=
  match s with
  | EmptyString => match cur with Some w => [w] | None => [] end
  | String a rest =>
      if isSpace a
      then match cur with
           | Some w => w :: fieldsFrom None rest
           | None => fieldsFrom None rest
           end
      else fieldsFrom (Some (match cur with
                             | Some w => w +:+ String a EmptyString
                             | None => String a EmptyString
                             end)) rest
  end.

(** strings.Fields *)
Definition Fields (s : string) : list string := fieldsFrom None s.

(** strings.Join *)
Fixpoint Join (elems : list string) (sep : string) : string :=
  match elems with
  | [] => ""
  | [e] => e
  | e :: rest => e +:+ sep +:+ Join rest sep
  end.

(** [stripPrefix p s] is [Some r] when [s = p ++ r]. *)
Fixpoint stripPrefix (p s : string) : option string :=
  match p, s with
  | EmptyString, _ => Some s
  | String a p', String b s' =>
      if Ascii.eqb a b then stripPrefix p' s' else None
  | String _ _, EmptyString => None
  end.

(** strings.TrimPrefix *)
Definition TrimPrefix (s p : string) : string :=
  match stripPrefix p s with
  | Some r => r
  | None => s
  end.

Definition newline : string := String "010"%char EmptyString.

(** The [%d] verb of [fmt] on an [int]. *)
Definition itoa (n : Z) : string := pretty n.

(** [append(s[:i], s[i+1:]...)] for [i < len(s)]: the elements before
    index [i] followed by those after it. *)
Definition cut {A} (s : list A) (i : nat) : list A :=
  take i s ++ drop (S i) s.

End Go.

(** ** Package util *)

Module util.

(** [for i, v := range s { if v == r { return append(s[:i], s[i+1:]...) } }]:
    [i] is the index of [s'], the part of [s] not yet visited, inside the
    whole slice [s]. *)
Fixpoint RemoveString_from (s : list string) (i : nat) (s' : list string)
    (r : string) : list string :=
  match s' with
  | [] => s
  | v :: rest =>
      if String.eqb v r then Go.cut s i
      else RemoveString_from s (S i) rest r
  end.

Definition RemoveString (s : list string) (r : string) : list string :=
  RemoveString_from s 0 s r.

Definition ShortURL (s : string) : string :=
  Go.TrimPrefix (Go.TrimPrefix s "http://") "https://".

End util.

(** ** Package client *)

Module client.

(** [Message'] is the field [Message] of the Go struct [Message]. *)
Record Message := {
  Event : string;
  Topic : string;
  Message' : string;
  Title : string;
  Priority : Z;
  Tags : list string
}.

(** What [Publish] hands to [http.DefaultClient]. *)
Record Request := {
  Method : string;
  URL : string;
  Body : string;
  Header : gmap string string
}.

(** What [http.DefaultClient.Do] gives back: an error, or a response, of
    which the code reads [StatusCode] only. *)
Inductive DoResult :=
| DoError (err : string)
| Response (StatusCode : Z).

(** [r.Header.Set(key, value)] *)
Definition HeaderSet (key value : string) (r : Request) : Request :=
  {| Method := Method r; URL := URL r; Body := Body r;
     Header := <[key := value]> (Header r) |}.

(** client_options.go *)
Definition MessageOption := Request -> Request * error.

Definition WithTitle (title : string) : MessageOption := fun r =>
  if String.eqb title "" then (r, None) else (HeaderSet "X-Title" title r, None).

Definition WithPriority (priority : string) : MessageOption := fun r =>
  if String.eqb priority "" then (r, None)
  else (HeaderSet "X-Priority" priority r, None).

Definition WithTags (tags : string) : MessageOption := fun r =>
  if String.eqb tags "" then (r, None) else (HeaderSet "X-Tags" tags r, None).

(** The goroutine that [Subscribe] starts: [handleConnectionLoop] for
    [connTopic], under a context that is cancelled or not. *)
Record connector := {
  connTopic : string;
  ctxDone : bool
}.

(** [cancel] is the index, in [goroutines], of the connector whose context
    the stored [context.CancelFunc] cancels. *)
Record subscription := { cancel : nat }.

(** [goroutines]: the connectors started so far, in start order.
    [requests]: the requests [Publish] has performed, in order. *)
Record Client := {
  subscriptions : gmap string subscription;
  goroutines : list connector;
  requests : list Request
}.

Definition New : Client :=
  {| subscriptions := ∅; goroutines := []; requests := [] |}.

Definition cancelCtx (g : connector) : connector :=
  {| connTopic := connTopic g; ctxDone := true |}.

Definition Subscribe (c : Client) (topicURL : string) : Client :=
  match subscriptions c !! topicURL with
  | Some _ => c
  | None =>
      {| subscriptions :=
           <[topicURL := {| cancel := length (goroutines c) |}]> (subscriptions c);
         goroutines := goroutines c ++ [{| connTopic := topicURL; ctxDone := false |}];
         requests := requests c |}
  end.

Definition Unsubscribe (c : Client) (topicURL : string) : Client :=
  match subscriptions c !! topicURL with
  | None => c
  | Some sub =>
      {| subscriptions := subscriptions c;
         goroutines := alter cancelCtx (cancel sub) (goroutines c);
         requests := requests c |}
  end.

(** The connectors of [topicURL] whose context has not been cancelled. *)
Definition isLive (topicURL : string) (g : connector) : bool :=
  String.eqb (connTopic g) topicURL && negb (ctxDone g).

Definition liveConnectors (c : Client) (topicURL : string) : list connector :=
  List.filter (isLive topicURL) (goroutines c).

Section Transport.

(** [http.DefaultClient.Do], given the requests performed before. *)
Variable Do : list Request -> Request -> DoResult.

Fixpoint applyOptions (options : list MessageOption) (req : Request)
    : Request * error :=
  match options with
  | [] => (req, None)
  | option :: rest =>
      match option req with
      | (req', None) => applyOptions rest req'
      | (req', Some err) => (req', Some err)
      end
  end.

(** [Publish]; [http.NewRequest] is taken to succeed (its error is
    dropped by the code). *)
Definition Publish (c : Client) (topicURL message : string)
    (options : list MessageOption) : Client * error :=
  let req := {| Method := "POST"; URL := topicURL; Body := message;
                Header := ∅ |} in
  match applyOptions options req with
  | (_, Some err) => (c, Some err)
  | (req, None) =>
      let c' := {| subscriptions := subscriptions c;
                   goroutines := goroutines c;
                   requests := requests c ++ [req] |} in
      match Do (requests c) req with
      | DoError err => (c', Some err)
      | Response StatusCode =>
          if (299 <? StatusCode)%Z
          then (c', Some ("unexpected response " +:+ Go.itoa StatusCode
                          +:+ " from server"))
          else (c', None)
      end
  end.

End Transport.

(** *** The connector task *)

(** A line of the response body, as [json.Decoder.Decode] sees it. *)
Inductive line :=
| Decoded (m : Message)
| Malformed (err : string).

(** One connection attempt, as the network answers it: the request cannot
    be built, [Do] fails, or a body arrives whose lines the scanner yields
    until the stream ends. *)
Inductive attempt :=
| NewRequestError (err : string)
| ConnectError (err : string)
| Stream (lines : list line).

(** The [for scanner.Scan()] loop: the messages sent on [msgChan], and the
    returned error. *)
Fixpoint scanLines (lines : list line) : list Message * error :=
  match lines with
  | [] => ([], None)
  | Malformed err :: _ => ([], Some err)
  | Decoded m :: rest =>
      let '(ms, err) := scanLines rest in (m :: ms, err)
  end.

Definition handleConnection (a : attempt) : list Message * error :=
  match a with
  | NewRequestError err => ([], Some err)
  | ConnectError err => ([], Some err)
  | Stream lines => scanLines lines
  end.

(** What a run of the connector does, in order. *)
Inductive event :=
| Get (url : string)
| Push (m : Message)
| Log (text : string)
| After (seconds : Z).

Inductive status := Exited | Running.

(** [time.After(5 * time.Second)] *)
Definition retryDelay : Z := 5.

(** One pass through the body of the [for]: the attempt, then the
    [select].  [done] tells which case the [select] took: [true] for
    [<-ctx.Done()], [false] for the timer. *)
Definition iteration (topicURL : string) (a : attempt) : list event :=
  let '(ms, err) := handleConnection a in
  match a with
  | NewRequestError _ => []
  | _ => [Get (topicURL +:+ "/json")]
  end ++ map Push ms ++
  match err with
  | Some e => [Log ("connection to " +:+ topicURL +:+ " failed: " +:+ e)]
  | None => []
  end.

(** [handleConnectionLoop] against the first [length env] answers of the
    outside world; [Running] when the loop is back at the top of the [for]
    after them. *)
Fixpoint handleConnectionLoop (topicURL : string)
    (env : list (attempt * bool)) : list event * status :=
  match env with
  | [] => ([], Running)
  | (a, done) :: env' =>
      if done
      then (iteration topicURL a
              ++ [Log ("connection to " +:+ topicURL +:+ " exited")], Exited)
      else
        let '(evs, st) := handleConnectionLoop topicURL env' in
        (iteration topicURL a ++ After retryDelay :: evs, st)
  end.

End client.

(** ** Package config *)

Module config.

Definition DefaultBaseURL : string := "https://ntfy.sh".

Record Config := {
  Token : string;
  BaseURL : string;
  Debug : bool
}.

Definition New (token : string) : Config :=
  {| Token := token; BaseURL := DefaultBaseURL; Debug := false |}.

(** [type Platform string] and its constants. *)
Definition Slack : string := "slack".
Definition Discord : string := "discord".
Definition Mem : string := "mem".

(** The method [Platform]: the connection type, read off the token. *)
Definition Platform (c : Config) : string :=
  if String.prefix "mem" (Token c) then Mem
  else if String.prefix "xoxb-" (Token c) then Slack
  else Discord.

End config.

(** ** The command-line library (github.com/urfave/cli/v2)

    [runCLI] hands the tokens of a chat line to [cli.App.Run].  The library
    is not part of the repository; this module follows what version 2 of it
    does with the fields [runCLI] sets: flags are parsed by Go's
    [flag.FlagSet.Parse], which stops at the first argument that is not a
    flag; the first remaining argument selects the command by name or alias;
    the command's own flags are parsed the same way from what follows it.
    The texts the library renders (help pages, its error messages) are left
    to the caller as [chunk]s.  The second parse that
    [UseShortOptionHandling] triggers for a bundle of one-letter flags is
    not modelled: such a bundle is reported as the undefined flag it is on
    the first parse.  Nor is the library's special treatment of an empty
    command name, which no chat line produces: [strings.Fields] returns no
    empty token. *)

Module cli.

Record Flag := {
  Name : string;
  Aliases : list string;
  Value : string;        (* the default *)
  IsBoolFlag : bool
}.

Definition StringFlag (name : string) (aliases : list string) (value : string) :=
  {| Name := name; Aliases := aliases; Value := value; IsBoolFlag := false |}.

(** cli.HelpFlag *)
Definition HelpFlag : Flag :=
  {| Name := "help"; Aliases := ["h"]; Value := "false"; IsBoolFlag := true |}.

Definition Names (f : Flag) : list string := Name f :: Aliases f.

Definition HasName (names : list string) (name : string) : bool :=
  existsb (String.eqb name) names.

Inductive flagError :=
| BadSyntax (arg : string)
| NotDefined (name : string)
| NeedsArgument (name : string)
| InvalidBoolean (value name : string)
| TwoForms (name1 name2 : string).

(** The state of a [flag.FlagSet] after [Parse]: the flags that were set,
    under the name used on the command line, in order; and the arguments
    left over. *)
Inductive parsed :=
| Parsed (visited : list (string * string)) (rest : list string)
| Failed (visited : list (string * string)) (e : flagError).

(** strconv.ParseBool *)
Definition ParseBool (s : string) : option bool :=
  if HasName ["1"; "t"; "T"; "TRUE"; "true"; "True"] s then Some true
  else if HasName ["0"; "f"; "F"; "FALSE"; "false"; "False"] s then Some false
  else None.

Definition FormatBool (b : bool) : string := if b then "true" else "false".

(** [splitEq s] cuts [s] at its first ['=']. *)
Fixpoint splitEq (s : string) : string * option string :=
  match s with
  | EmptyString => (EmptyString, None)
  | String a rest =>
      if Ascii.eqb a "=" then (EmptyString, Some rest)
      else let '(n, v) := splitEq rest in (String a n, v)
  end.

(** The loop of [flag.FlagSet.Parse] over [parseOne]. *)
Fixpoint Parse (formal : list Flag) (visited : list (string * string))
    (args : list string) : parsed :=
  match args with
  | [] => Parsed visited []
  | s :: rest =>
      match s with
      | String "-" (String b s2 as s1) =>
          if Ascii.eqb b "-" && String.eqb s2 "" then Parsed visited rest
          else
            match (if Ascii.eqb b "-" then s2 else s1) with
            | EmptyString => Failed visited (BadSyntax s)
            | String c name' =>
                if Ascii.eqb c "-" || Ascii.eqb c "=" then Failed visited (BadSyntax s)
                else
                  let '(n, value) := splitEq name' in
                  let name := String c n in
                  match List.find (fun f => HasName (Names f) name) formal with
                  | None => Failed visited (NotDefined name)
                  | Some f =>
                      if IsBoolFlag f then
                        match value with
                        | None => Parse formal (visited ++ [(name, "true")]) rest
                        | Some v =>
                            match ParseBool v with
                            | Some bv =>
                                Parse formal (visited ++ [(name, FormatBool bv)]) rest
                            | None => Failed visited (InvalidBoolean v name)
                            end
                        end
                      else
                        match value with
                        | Some v => Parse formal (visited ++ [(name, v)]) rest
                        | None =>
                            match rest with
                            | v :: rest' => Parse formal (visited ++ [(name, v)]) rest'
                            | [] => Failed visited (NeedsArgument name)
                            end
                        end
                  end
            end
      | _ => Parsed visited args
      end
  end.

(** [normalizeFlags]: a flag given under two of its names is an error. *)
Fixpoint normalizeFlags (flags : list Flag) (visited : list (string * string))
    : option flagError :=
  match flags with
  | [] => None
  | f :: rest =>
      match List.filter (HasName (map fst visited)) (Names f) with
      | n1 :: n2 :: _ => Some (TwoForms n2 n1)
      | _ => normalizeFlags rest visited
      end
  end.

(** A [cli.Context]: the flag set of the command and the positional
    arguments. *)
Record Context := {
  flagSet : list Flag;
  visited : list (string * string);
  Args : list string
}.

(** The value last given to [f] on the command line. *)
Definition lastValue (f : Flag) (visited : list (string * string)) : option string :=
  last (map snd (List.filter (fun nv => HasName (Names f) (fst nv)) visited)).

Definition NArg (c : Context) : nat := length (Args c).

Definition First (c : Context) : string :=
  match Args c with
  | a :: _ => a
  | [] => ""
  end.

Record Command := {
  cmdName : string;
  cmdAliases : list string;
  cmdFlags : list Flag;
  cmdOnUsageError : option (flagError -> option flagError)
}.

Record App := {
  Commands : list Command;
  OnUsageError : option (flagError -> option flagError)
}.

(** What the library writes to [App.Writer]. *)
Inductive chunk :=
| Text (s : string)
| ErrorText (e : flagError)
| HelpText (command : option string).

(** What [App.Run] comes to: the [Action] of a command is called, or
    [App.CommandNotFound] is, or the library deals with the line itself,
    writing [written] and returning [err]. *)
Inductive outcome :=
| Invoke (command : string) (c : Context)
| NotFound (name : string)
| Handled (written : list chunk) (err : option flagError).

Definition helpCommand : Command :=
  {| cmdName := "help"; cmdAliases := ["h"]; cmdFlags := [];
     cmdOnUsageError := None |}.

Definition findCommand (commands : list Command) (name : string) : option Command :=
  List.find (fun c => HasName (cmdName c :: cmdAliases c) name) commands.

(** [c.String(name)] *)
Definition String (c : Context) (name : string) : string :=
  match List.find (fun f => HasName (Names f) name) (flagSet c) with
  | None => ""
  | Some f =>
      match lastValue f (visited c) with
      | Some v => v
      | None => Value f
      end
  end.

(** [c.Bool(name)] *)
Definition Bool (c : Context) (name : string) : bool :=
  String.eqb (String c name) "true".

(** ShowCommandHelp *)
Definition ShowCommandHelp (commands : list Command) (name : string) : outcome :=
  match findCommand commands name with
  | Some c => Handled [HelpText (Some (cmdName c))] None
  | None => NotFound name
  end.

(** Command.Run *)
Definition RunCommand (commands : list Command) (c : Command) (tail : list string)
    : outcome :=
  let flags := cmdFlags c ++ [HelpFlag] in
  let usage e :=
    match cmdOnUsageError c with
    | Some f => Handled [] (f e)
    | None =>
        Handled [Text "Incorrect Usage: "; ErrorText e; Text (Go.newline +:+ Go.newline);
                 HelpText (Some (cmdName c))] (Some e)
    end in
  match Parse flags [] tail with
  | Failed _ e => usage e
  | Parsed visited rest =>
      match normalizeFlags flags visited with
      | Some e => usage e
      | None =>
          let ctx := {| flagSet := flags; visited := visited; Args := rest |} in
          if Bool ctx "help" then Handled [HelpText (Some (cmdName c))] None
          else if String.eqb (cmdName c) "help" then
            match rest with
            | name :: _ => ShowCommandHelp commands name
            | [] => Handled [HelpText None] None
            end
          else Invoke (cmdName c) ctx
      end
  end.

(** App.Run *)
Definition Run (a : App) (arguments : list string) : outcome :=
  let commands := Commands a ++ [helpCommand] in
  let flags := [HelpFlag] in
  let result := Parse flags [] (tail arguments) in
  let visited := match result with Parsed v _ => v | Failed v _ => v end in
  match normalizeFlags flags visited with
  | Some nerr =>
      Handled [ErrorText nerr; Text Go.newline; HelpText None] (Some nerr)
  | None =>
      match result with
      | Failed _ e =>
          match OnUsageError a with
          | Some f => Handled [] (f e)
          | None =>
              Handled [Text "Incorrect Usage. "; ErrorText e;
                       Text (Go.newline +:+ Go.newline); HelpText None] (Some e)
          end
      | Parsed _ rest =>
          if Bool {| flagSet := flags; visited := visited; Args := rest |} "help"
          then Handled [HelpText None] None
          else
            match rest with
            | [] => Handled [HelpText None] None
            | name :: tail =>
                match findCommand commands name with
                | Some c => RunCommand commands c tail
                | None => ShowCommandHelp commands name
                end
            end
      end
  end.

End cli.

(** ** Package bot *)

Module bot.

(** types.go *)
Record messageEvent := {
  ID : string;
  Channel : string;
  User : string;
  Message : string
}.

(** A call of a method of the chat adapter that talks to the platform. *)
Inductive call :=
| Send (channel message : string)
| React (channelID messageID emoji : string).

(** The interface [conn], as far as the bot uses it: the mention of the
    bot, what the platform answers to a call given the calls before it,
    and the calls made so far. *)
Record conn := {
  MentionBot : string;
  answer : list call -> call -> error;
  calls : list call
}.

Definition invoke (c : conn) (x : call) : conn * error :=
  ({| MentionBot := MentionBot c; answer := answer c; calls := calls c ++ [x] |},
   answer c (calls c) x).

(** The struct [Bot] ([conn'] is its field [conn]); [cancelFn] and the
    mutex have no part in what follows. *)
Record Bot := {
  config : config.Config;
  conn' : conn;
  client : client.Client;
  subscriptions : gmap string (list string)   (* Topic URL -> Channel IDs *)
}.

Definition withConn (b : Bot) (c : conn) : Bot :=
  {| config := config b; conn' := c; client := client b;
     subscriptions := subscriptions b |}.

Definition withClient (b : Bot) (c : client.Client) : Bot :=
  {| config := config b; conn' := conn' b; client := c;
     subscriptions := subscriptions b |}.

Definition withSubscriptions (b : Bot) (s : gmap string (list string)) : Bot :=
  {| config := config b; conn' := conn' b; client := client b;
     subscriptions := s |}.

Definition connSend (b : Bot) (channel message : string) : Bot * error :=
  let '(c, err) := invoke (conn' b) (Send channel message) in (withConn b c, err).

Definition connReact (b : Bot) (channelID messageID emoji : string) : Bot * error :=
  let '(c, err) := invoke (conn' b) (React channelID messageID emoji) in
  (withConn b c, err).

(** [url.QueryEscape] of the thumbs-up emoji (U+1F44D). *)
Definition thumbsUp : string := "%F0%9F%91%8D".

(** [New], given the connection [newDiscordConn] makes.  [Platform] is
    [Discord] unless the token starts with [mem] or [xoxb-]. *)
Definition New (conf : config.Config) (discord : conn) : Bot + string :=
  if String.prefix "mem" (config.Token conf) then inr "invalid type: mem"
  else if String.prefix "xoxb-" (config.Token conf) then inr "invalid type: slack"
  else inl {| config := conf; conn' := discord; client := client.New;
              subscriptions := ∅ |}.

(** [for _, channel := range channels { b.conn.Send(channel, message) }] *)
Fixpoint sendAll (b : Bot) (channels : list string) (message : string) : Bot :=
  match channels with
  | [] => b
  | channel :: rest => sendAll (fst (connSend b channel message)) rest message
  end.

Definition handleSubscriptionMessage (m : client.Message) (b : Bot) : Bot * error :=
  if negb (String.eqb (client.Event m) "message") then (b, None)
  else
    let topicURL := "https://ntfy.sh/" +:+ client.Topic m in
    let message := "**" +:+ util.ShortURL topicURL +:+ "** " +:+ client.Message' m in
    match subscriptions b !! topicURL with
    | Some channels => (sendAll b channels message, None)
    | None => (b, None)
    end.

(** How a call ends: it returns, or the goroutine panics. *)
Inductive run (A : Type) :=
| Returns (a : A)
| Panics.

Arguments Returns {A} a.
Arguments Panics {A}.



Section Outside.

(** The HTTP transport, and the texts the command-line library renders. *)
Variable Do : list client.Request -> client.Request -> client.DoResult.
Variable render : cli.chunk -> string.

Definition execPublish (c : cli.Context) (ev : messageEvent) (b : Bot) : Bot * error :=
  let baseURL := cli.String c "server" in
  let title := cli.String c "title" in
  let priority := cli.String c "priority" in
  let tags := cli.String c "tags" in
  if Nat.ltb (cli.NArg c) 2 then (b, Some "topic and/or message missing")
  else
    let topic := cli.First c in
    let topicURL := baseURL +:+ "/" +:+ topic in
    let message := Go.Join (tail (cli.Args c)) " " in
    match client.Publish Do (client b) topicURL message
            [client.WithTitle title; client.WithPriority priority;
             client.WithTags tags] with
    | (cl, Some err) => (withClient b cl, Some err)
    | (cl, None) => connReact (withClient b cl) (Channel ev) (ID ev) thumbsUp
    end.

Definition execSubscribe (c : cli.Context) (ev : messageEvent) (b : Bot) : Bot * error :=
  let baseURL := cli.String c "server" in
  if Nat.ltb (cli.NArg c) 1
  then (b, Some "missing server address, see --help for usage details")
  else
    let topic := cli.First c in
    let topicURL := baseURL +:+ "/" +:+ topic in
    let b1 :=
      match subscriptions b !! topicURL with
      | Some _ => b
      | None =>
          withSubscriptions (withClient b (client.Subscribe (client b) topicURL))
            (<[topicURL := []]> (subscriptions b))
      end in
    let b2 :=
      withSubscriptions b1
        (<[topicURL := default [] (subscriptions b1 !! topicURL) ++ [Channel ev]]>
           (subscriptions b1)) in
    connReact b2 (Channel ev) (ID ev) thumbsUp.

Definition execUnsubscribe (c : cli.Context) (ev : messageEvent) (b : Bot) : Bot * error :=
  let baseURL := cli.String c "server" in
  if Nat.ltb (cli.NArg c) 1
  then (b, Some "missing server address, see --help for usage details")
  else
    let topic := cli.First c in
    let topicURL := baseURL +:+ "/" +:+ topic in
    let b2 :=
      match subscriptions b !! topicURL with
      | Some channels =>
          let b1 :=
            withSubscriptions b
              (<[topicURL := util.RemoveString channels (Channel ev)]>
                 (subscriptions b)) in
          if Nat.eqb (length (default [] (subscriptions b1 !! topicURL))) 0
          then
            withSubscriptions
              (withClient b1 (client.Unsubscribe (client b1) topicURL))
              (delete topicURL (subscriptions b1))
          else b1
      | None => b
      end in
    connReact b2 (Channel ev) (ID ev) thumbsUp.

Definition execCommandNotFound (ev : messageEvent) (s : string) (b : Bot) : Bot * error :=
  connSend b (Channel ev) ("command not found: " +:+ s).

(** The [cli.App] that [runCLI] builds. *)
Definition serverFlag (b : Bot) : cli.Flag :=
  cli.StringFlag "server" ["s"] (config.BaseURL (config b)).

Definition app (b : Bot) : cli.App :=
  {| cli.Commands :=
       [ {| cli.cmdName := "publish"; cli.cmdAliases := ["send"];
            cli.cmdFlags :=
              [ serverFlag b;
                cli.StringFlag "title" ["t"] "";
                cli.StringFlag "priority" ["p"] "";
                cli.StringFlag "tags" ["ta"] "" ];
            cli.cmdOnUsageError := Some (fun _ => None) |};
         {| cli.cmdName := "subscribe"; cli.cmdAliases := ["sub"; "add"];
            cli.cmdFlags := [serverFlag b];
            cli.cmdOnUsageError := None |};
         {| cli.cmdName := "unsubscribe"; cli.cmdAliases := ["del"; "rm"];
            cli.cmdFlags := [serverFlag b];
            cli.cmdOnUsageError := None |} ];
     cli.OnUsageError := Some (fun _ => None) |}.

Definition runCLI (ev : messageEvent) (args : list string) (b : Bot) : Bot * error :=
  match cli.Run (app b) args with
  | cli.Invoke command c =>
      if String.eqb command "publish" then execPublish c ev b
      else if String.eqb command "subscribe" then execSubscribe c ev b
      else if String.eqb command "unsubscribe" then execUnsubscribe c ev b
      else (b, None)
  | cli.NotFound s => (fst (execCommandNotFound ev s b), None)
  | cli.Handled written err =>
      let buf := Go.Join (map render written) "" in
      let b' := if Nat.ltb 0 (String.length buf)
                then fst (connSend b (Channel ev) buf) else b in
      (b', option_map (fun e => render (cli.ErrorText e)) err)
  end.

Definition handleChatMessageEvent (ev : messageEvent) (b : Bot) : Bot * error :=
  match Go.Fields (Message ev) with
  | [] => (b, None)
  | mention :: _ =>
      if negb (String.eqb mention (MentionBot (conn' b))) then (b, None)
      else
        let args := Go.Fields (Message ev) in   (* FIXME handle quotes *)
        match runCLI ev args b with
        | (b', Some err) => connSend b' (Channel ev) err
        | (b', None) => (b', None)
        end
  end.

End Outside.

End bot.

(** ** The Discord connection (the second part of bot/types.go) *)

Module discord.

(** [Mention] and [MentionBot]; of the session the latter reads the id of
    the bot's own user. *)
Definition Mention (user : string) : string := "<@!" +:+ user +:+ ">".

Definition MentionBot (selfID : string) : string := "<@!" +:+ selfID +:+ ">".

(** [discordUserLinkRegex] is [<@!([^>]+)>].  [spanNotGt s] is the longest
    run of bytes other than ['>'] at the start of [s], and what follows it;
    no byte of a multi-byte rune is ['>'], so the run is the same read as
    runes. *)
Fixpoint spanNotGt (s : string) : string * string :=
  match s with
  | EmptyString => (EmptyString, EmptyString)
  | String a rest =>
      if Ascii.eqb a ">" then (EmptyString, s)
      else let '(run, after) := spanNotGt rest in (String a run, after)
  end.

(** The regular expression matched at the start of [s]: its group 1.  The
    class is greedy and cannot take a ['>'], so there is a match exactly
    when the run after [<@!] is not empty and a ['>'] follows it. *)
Definition matchHere (s : string) : option string :=
  match Go.stripPrefix "<@!" s with
  | Some r =>
      match spanNotGt r with
      | (String a run, String b _) =>
          if Ascii.eqb b ">" then Some (String a run) else None
      | _ => None
      end
  | None => None
  end.

(** Group 1 of the leftmost match, as [FindStringSubmatch] returns it. *)
Fixpoint FindStringSubmatch (s : string) : option string :=
  match matchHere s with
  | Some id => Some id
  | None =>
      match s with
      | EmptyString => None
      | String _ rest => FindStringSubmatch rest
      end
  end.

(** No byte of [s] is ['>']. *)
Definition noGt (s : string) : bool :=
  forallb (fun a => negb (Ascii.eqb a ">")) (list_ascii_of_string s).

Definition ParseMention (user : string) : string * error :=
  match FindStringSubmatch user with
  | Some id => (id, None)
  | None => ("", Some "invalid user")
  end.

End discord.

(** ** The states the bot can be in *)

Module registry.

Import bot.

(** [fmt.Sprintf("%s/%s", baseURL, topic)]: the key under which a command
    with context [c] finds its topic in the subscription map. *)
Definition topicURL (c : cli.Context) : string :=
  cli.String c "server" +:+ "/" +:+ cli.First c.

(** What every state the bot reaches satisfies: no topic is kept with an
    empty channel list; the client never started two connectors for one
    topic; the client knows the topic of every connector and of every entry
    of the bot's map. *)
Record wf (b : Bot) : Prop := {
  wf_nonempty : forall t l, subscriptions b !! t = Some l -> l <> [];
  wf_nodup : NoDup (map client.connTopic (client.goroutines (client b)));
  wf_known : forall g, g ∈ client.goroutines (client b) ->
               is_Some (client.subscriptions (client b) !! client.connTopic g);
  wf_client : forall t, is_Some (subscriptions b !! t) ->
                is_Some (client.subscriptions (client b) !! t)
}.

(** The part of the state the invariant reads. *)
Definition core (b : Bot) :=
  (subscriptions b, client.subscriptions (client b), client.goroutines (client b)).

Section Outside.

Variable Do : list client.Request -> client.Request -> client.DoResult.
Variable render : cli.chunk -> string.

(** The states reached from [New] by handling chat messages and
    notification messages, the two loops of [Run]. *)
Inductive reachable : Bot -> Prop :=
| reach_New conf discord b :
    New conf discord = inl b -> reachable b
| reach_chat ev b :
    reachable b -> reachable (fst (handleChatMessageEvent Do render ev b))
| reach_notification m b :
    reachable b -> reachable (fst (handleSubscriptionMessage m b)).

End Outside.

(** *** Concrete surroundings, for evaluating the code *)

(** A Discord connection whose bot has user id 42 and whose platform
    accepts every call. *)
Definition discord : conn :=
  {| MentionBot := "<@!42>"; answer := fun _ _ => None; calls := [] |}.

(** A server that answers every request with status 200. *)
Definition ok200 : list client.Request -> client.Request -> client.DoResult :=
  fun _ _ => client.Response 200.

Definition plain (c : cli.chunk) : string :=
  match c with
  | cli.Text s => s
  | cli.ErrorText _ => "error"
  | cli.HelpText _ => "help"
  end.

(** The bot that [New] returns for the default configuration. *)
Definition fresh : Bot :=
  {| config := config.New "token"; conn' := discord; client := client.New;
     subscriptions := ∅ |}.

(** The same bot on a platform that answers every call with an error. *)
Definition down : conn :=
  {| MentionBot := "<@!42>"; answer := fun _ _ => Some "platform down"; calls := [] |}.

Definition freshDown : Bot :=
  {| config := config.New "token"; conn' := down; client := client.New;
     subscriptions := ∅ |}.

(** The chat message [text], posted in [channel]. *)
Definition chat (channel text : string) : messageEvent :=
  {| ID := "m1"; Channel := channel; User := "u1"; Message := text |}.

(** The bot after the chat message [text] in [channel]. *)
Definition say (channel text : string) (b : Bot) : Bot :=
  fst (handleChatMessageEvent ok200 plain (chat channel text) b).

Definition notification (event topic body : string) : client.Message :=
  {| client.Event := event; client.Topic := topic; client.Message' := body;
     client.Title := ""; client.Priority := 0; client.Tags := [] |}.

(** The context a command gets from the line [<command> <topic>]: no flag
    given, one positional argument. *)
Definition topicOnly (b : Bot) (topic : string) : cli.Context :=
  {| cli.flagSet := [serverFlag b; cli.HelpFlag]; cli.visited := [];
     cli.Args := [topic] |}.

(** The double quote character. *)
Definition quote : string := String "034"%char EmptyString.

(** The cancel function the client keeps for a topic cancels the context of
    a connector of that topic. *)
Definition indexed (b : Bot) : Prop :=
  forall t sub,
    client.subscriptions (client b) !! t = Some sub ->
    client.connTopic <$> (client.goroutines (client b) !! client.cancel sub) = Some t.

(** A word of a chat line: not empty, of ASCII bytes, none of them white
    space. *)
Definition wordChar (a : ascii) : bool :=
  negb (Go.isSpace a) && Nat.ltb (nat_of_ascii a) 128.

Definition isWord (w : string) : bool :=
  negb (String.eqb w "") && forallb wordChar (list_ascii_of_string w).

(** A token that flag parsing takes for a flag: two bytes or more, the
    first a dash. *)
Definition isFlag (w : string) : bool :=
  String.prefix "-" w && Nat.ltb 1 (String.length w).

(** A URL that [http.NewRequest] takes for certain: [http://] or
    [https://] followed by letters, digits and the bytes [. - _ /] only.
    What makes [url.Parse] fail (a control byte, a bad percent escape, a
    bad port or host) cannot occur in it. *)
Definition urlChar (a : ascii) : bool :=
  let n := nat_of_ascii a in
  (Nat.leb 48 n && Nat.leb n 57) || (Nat.leb 65 n && Nat.leb n 90)
  || (Nat.leb 97 n && Nat.leb n 122)
  || Nat.eqb n 45 || Nat.eqb n 46 || Nat.eqb n 47 || Nat.eqb n 95.

Definition plainURL (s : string) : bool :=
  match Go.stripPrefix "https://" s with
  | Some r => forallb urlChar (list_ascii_of_string r)
  | None =>
      match Go.stripPrefix "http://" s with
      | Some r => forallb urlChar (list_ascii_of_string r)
      | None => false
      end
  end.

(** Arguments that flag parsing leaves alone: there is none, or the first
    is not a flag. *)
Definition positional (args : list string) : bool :=
  match args with
  | [] => true
  | a :: _ => negb (isFlag a)
  end.

(** The names under which the bot's commands, and the library's help
    command, are found. *)
Definition commandNames : list string :=
  ["publish"; "send"; "subscribe"; "sub"; "add"; "unsubscribe"; "del"; "rm";
   "help"; "h"].

(** The context of a command that was given no flag: the command's flags
    and the help flag, nothing visited, the positional arguments. *)
Definition plainContext (flags : list cli.Flag) (args : list string) : cli.Context :=
  {| cli.flagSet := flags ++ [cli.HelpFlag]; cli.visited := []; cli.Args := args |}.

Definition publishFlags (b : Bot) : list cli.Flag :=
  [serverFlag b; cli.StringFlag "title" ["t"] ""; cli.StringFlag "priority" ["p"] "";
   cli.StringFlag "tags" ["ta"] ""].

End registry.

(** ** The ways a connection attempt ends *)

Module connector.

(** How an attempt of the connector ends: the request cannot be built; the
    connection fails; the stream delivers the messages [ms] and then a line
    that does not decode, whatever follows it; the stream delivers [ms] and
    ends. *)
Inductive ending :=
| CannotBuild (err : string)
| CannotConnect (err : string)
| BadLine (ms : list client.Message) (err : string) (rest : list client.line)
| StreamEnds (ms : list client.Message).

Definition attemptOf (x : ending) : client.attempt :=
  match x with
  | CannotBuild err => client.NewRequestError err
  | CannotConnect err => client.ConnectError err
  | BadLine ms err rest =>
      client.Stream (map client.Decoded ms ++ client.Malformed err :: rest)
  | StreamEnds ms => client.Stream (map client.Decoded ms)
  end.

(** What is to be seen of such an attempt for the topic [topicURL]: a GET of
    the topic's JSON feed, unless the request could not be built; the
    messages in the order of the stream; the log line of the failure, unless
    the stream just ended. *)
Definition failed (topicURL err : string) : client.event :=
  client.Log ("connection to " +:+ topicURL +:+ " failed: " +:+ err).

Definition seen (topicURL : string) (x : ending) : list client.event :=
  match x with
  | CannotBuild err => [failed topicURL err]
  | CannotConnect err => [client.Get (topicURL +:+ "/json"); failed topicURL err]
  | BadLine ms err _ =>
      client.Get (topicURL +:+ "/json") :: map client.Push ms ++ [failed topicURL err]
  | StreamEnds ms => client.Get (topicURL +:+ "/json") :: map client.Push ms
  end.

End connector.

(** * Properties *)

(** ** util.RemoveString *)

Section RemoveStringFacts.

Implicit Types (s pre post : list string) (r v : string).

Lemma cut_middle {A} (pre post : list A) (x : A) :
  Go.cut (pre ++ x :: post) (length pre) = pre ++ post.
Proof.
  unfold Go.cut.
  rewrite take_app_length.
  replace (S (length pre)) with (length (pre ++ [x])) by (rewrite length_app; simpl; lia).
  replace (pre ++ x :: post) with ((pre ++ [x]) ++ post) by (now rewrite <- app_assoc).
  now rewrite drop_app_length.
Qed.

(** The loop, started in the middle of the slice, leaves the part already
    visited alone. *)
Lemma RemoveString_from_app pre s r :
  util.RemoveString_from (pre ++ s) (length pre) s r = pre ++ util.RemoveString s r.
Proof.
  revert pre. induction s as [|v rest IH]; intros pre.
  - reflexivity.
  - unfold util.RemoveString. simpl.
    destruct (String.eqb v r) eqn:E.
    + rewrite cut_middle. reflexivity.
    + specialize (IH (pre ++ [v])) as IH1.
      rewrite <- app_assoc, length_app in IH1. simpl in IH1.
      rewrite Nat.add_1_r in IH1. rewrite IH1.
      specialize (IH [v]) as IH2. simpl in IH2. rewrite IH2.
      now rewrite <- app_assoc.
Qed.

Lemma RemoveString_nil r : util.RemoveString [] r = [].
Proof. reflexivity. Qed.

Lemma RemoveString_cons v s r :
  util.RemoveString (v :: s) r =
  if String.eqb v r then s else v :: util.RemoveString s r.
Proof.
  unfold util.RemoveString at 1. simpl.
  destruct (String.eqb v r); [reflexivity|].
  apply (RemoveString_from_app [v] s r).
Qed.

Lemma RemoveString_absent s r : r ∉ s -> util.RemoveString s r = s.
Proof.
  induction s as [|v rest IH]; intros Hnot; [reflexivity|].
  rewrite RemoveString_cons.
  apply not_elem_of_cons in Hnot as [Hne Hrest].
  destruct (String.eqb_spec v r) as [->|_]; [congruence|].
  now rewrite IH.
Qed.

Lemma RemoveString_first pre post r :
  r ∉ pre -> util.RemoveString (pre ++ r :: post) r = pre ++ post.
Proof.
  induction pre as [|v pre IH]; intros Hnot; simpl.
  - rewrite RemoveString_cons, String.eqb_refl. reflexivity.
  - apply not_elem_of_cons in Hnot as [Hne Hrest].
    rewrite RemoveString_cons.
    destruct (String.eqb_spec v r) as [->|_]; [congruence|].
    now rewrite IH.
Qed.

Lemma RemoveString_count s r v :
  count_occ string_dec (util.RemoveString s r) v =
  if decide (v = r ∧ r ∈ s) then pred (count_occ string_dec s v)
  else count_occ string_dec s v.
Proof.
  induction s as [|x rest IH].
  - simpl. case_decide as H; [|reflexivity]. destruct H as [_ H]. inversion H.
  - rewrite RemoveString_cons. destruct (String.eqb_spec x r) as [->|Hne].
    + simpl. destruct (string_dec r v) as [->|Hrv].
      * rewrite decide_True by (split; [reflexivity|left]). reflexivity.
      * rewrite decide_False by (intros [-> _]; congruence). reflexivity.
    + simpl. rewrite IH. destruct (string_dec x v) as [->|Hxv].
      * rewrite !decide_False; [reflexivity| |]; intros [-> _]; congruence.
      * case_decide as H1; case_decide as H2; try reflexivity.
        -- exfalso. apply H2. destruct H1 as [-> H1]. split; [reflexivity|now right].
        -- exfalso. apply H1. destruct H2 as [-> H2]. split; [reflexivity|].
           apply elem_of_cons in H2 as [->|H2]; [congruence|exact H2].
Qed.

Lemma count_occ_elem_of s v : 0 < count_occ string_dec s v <-> v ∈ s.
Proof.
  rewrite list_elem_of_In. symmetry. apply count_occ_In.
Qed.

End RemoveStringFacts.

(** ** The client's connectors *)

Section ClientFacts.

Implicit Types (c : client.Client) (t : string) (g : client.connector).

Lemma connTopic_alter_cancel i (gs : list client.connector) :
  map client.connTopic (alter client.cancelCtx i gs) = map client.connTopic gs.
Proof.
  revert i. induction gs as [|g gs IH]; intros [|i]; simpl; try reflexivity.
  f_equal. apply IH.
Qed.

Lemma filter_none {A} (f : A -> bool) (l : list A) :
  (forall x, In x l -> f x = false) -> List.filter f l = [].
Proof.
  induction l as [|x l IH]; intros H; [reflexivity|]. simpl.
  rewrite (H x) by now left. apply IH. intros y Hy. apply H. now right.
Qed.

(** At most one connector of a topic is live when no topic has two
    connectors. *)
Lemma live_at_most_one t (gs : list client.connector) :
  NoDup (map client.connTopic gs) ->
  length (List.filter (client.isLive t) gs) <= 1.
Proof.
  induction gs as [|g gs IH]; simpl; intros Hnd; [lia|].
  apply NoDup_cons in Hnd as [Hnotin Hnd].
  destruct (client.isLive t g) eqn:E; [|auto].
  simpl. apply andb_true_iff in E as [E _]. apply String.eqb_eq in E.
  assert (List.filter (client.isLive t) gs = []) as ->; [|simpl; lia].
  apply filter_none. intros g' Hin.
  destruct (client.isLive t g') eqn:E'; [|reflexivity].
  apply andb_true_iff in E' as [E' _]. apply String.eqb_eq in E'.
  exfalso. apply Hnotin. rewrite E, <- E'.
  apply list_elem_of_In in Hin. now apply list_elem_of_fmap_2.
Qed.

Lemma no_live_of_unknown t (gs : list client.connector) :
  (forall g, g ∈ gs -> client.connTopic g <> t) ->
  List.filter (client.isLive t) gs = [].
Proof.
  intros H. apply filter_none. intros g Hin.
  apply list_elem_of_In in Hin. specialize (H g Hin).
  unfold client.isLive. destruct (String.eqb_spec (client.connTopic g) t); [congruence|reflexivity].
Qed.

Lemma Subscribe_known c t :
  is_Some (client.subscriptions c !! t) -> client.Subscribe c t = c.
Proof. intros [sub H]. unfold client.Subscribe. now rewrite H. Qed.

(** The first [Subscribe] of a topic starts its connector, and it is the
    only live one. *)
Lemma Subscribe_starts c t :
  client.subscriptions c !! t = None ->
  (forall g, g ∈ client.goroutines c ->
     is_Some (client.subscriptions c !! client.connTopic g)) ->
  client.goroutines (client.Subscribe c t) =
    client.goroutines c ++ [{| client.connTopic := t; client.ctxDone := false |}] /\
  length (client.liveConnectors (client.Subscribe c t) t) = 1.
Proof.
  intros Hnone Hknown. unfold client.liveConnectors, client.Subscribe.
  rewrite Hnone. simpl. split; [reflexivity|].
  rewrite List.filter_app, no_live_of_unknown.
  - simpl. unfold client.isLive. simpl. now rewrite String.eqb_refl.
  - intros g Hin Heq. specialize (Hknown g Hin) as [sub Hsub].
    rewrite Heq in Hsub. congruence.
Qed.

End ClientFacts.

(** ** What the commands do to the registry *)

Section Commands.

Import bot registry.

Variable Do : list client.Request -> client.Request -> client.DoResult.
Variable render : cli.chunk -> string.

Implicit Types (b : Bot) (c : cli.Context) (ev : messageEvent).

Lemma NArg_ltb c n : n <= cli.NArg c -> Nat.ltb (cli.NArg c) n = false.
Proof. intros H. apply Nat.ltb_ge. exact H. Qed.

Lemma execSubscribe_subscriptions c ev b :
  1 <= cli.NArg c ->
  subscriptions (fst (execSubscribe c ev b)) =
  <[topicURL c := default [] (subscriptions b !! topicURL c) ++ [Channel ev]]>
    (subscriptions b).
Proof.
  intros H. unfold execSubscribe. rewrite (NArg_ltb _ _ H). fold (topicURL c).
  destruct (subscriptions b !! topicURL c) as [l|] eqn:E; simpl.
  - now rewrite E.
  - now rewrite lookup_insert_eq, insert_insert_eq.
Qed.

Lemma execSubscribe_client c ev b :
  1 <= cli.NArg c ->
  client (fst (execSubscribe c ev b)) =
  match subscriptions b !! topicURL c with
  | Some _ => client b
  | None => client.Subscribe (client b) (topicURL c)
  end.
Proof.
  intros H. unfold execSubscribe. rewrite (NArg_ltb _ _ H). fold (topicURL c).
  now destruct (subscriptions b !! topicURL c).
Qed.

Lemma execUnsubscribe_subscriptions c ev b :
  1 <= cli.NArg c ->
  subscriptions (fst (execUnsubscribe c ev b)) =
  match subscriptions b !! topicURL c with
  | None => subscriptions b
  | Some channels =>
      match util.RemoveString channels (Channel ev) with
      | [] => delete (topicURL c) (subscriptions b)
      | l => <[topicURL c := l]> (subscriptions b)
      end
  end.
Proof.
  intros H. unfold execUnsubscribe. rewrite (NArg_ltb _ _ H). fold (topicURL c).
  destruct (subscriptions b !! topicURL c) as [l|] eqn:E; simpl; [|reflexivity].
  rewrite lookup_insert_eq. simpl.
  destruct (util.RemoveString l (Channel ev)); simpl; [|reflexivity].
  now rewrite delete_insert_eq.
Qed.

Lemma execUnsubscribe_client c ev b :
  1 <= cli.NArg c ->
  client (fst (execUnsubscribe c ev b)) =
  match subscriptions b !! topicURL c with
  | None => client b
  | Some channels =>
      match util.RemoveString channels (Channel ev) with
      | [] => client.Unsubscribe (client b) (topicURL c)
      | _ => client b
      end
  end.
Proof.
  intros H. unfold execUnsubscribe. rewrite (NArg_ltb _ _ H). fold (topicURL c).
  destruct (subscriptions b !! topicURL c) as [l|] eqn:E; simpl; [|reflexivity].
  rewrite lookup_insert_eq. simpl.
  now destruct (util.RemoveString l (Channel ev)).
Qed.

(** Every command that gets as far as the registry ends with the
    thumbs-up reaction, and returns what the reaction returns. *)
Lemma execUnsubscribe_reacts c ev b :
  1 <= cli.NArg c ->
  calls (conn' (fst (execUnsubscribe c ev b))) =
    calls (conn' b) ++ [React (Channel ev) (ID ev) thumbsUp] /\
  snd (execUnsubscribe c ev b) =
    answer (conn' b) (calls (conn' b)) (React (Channel ev) (ID ev) thumbsUp).
Proof.
  intros H. unfold execUnsubscribe. rewrite (NArg_ltb _ _ H).
  destruct (subscriptions b !! _); simpl; [|now split].
  now destruct (Nat.eqb _ 0).
Qed.

End Commands.

(** ** The invariant of the registry *)

Section Invariant.

Import bot registry.

Variable Do : list client.Request -> client.Request -> client.DoResult.
Variable render : cli.chunk -> string.

Implicit Types (b : Bot) (c : cli.Context) (ev : messageEvent).

Lemma wf_core b b' : core b = core b' -> wf b -> wf b'.
Proof.
  unfold core. intros [= Hs Hc Hg] [H1 H2 H3 H4].
  split; rewrite <- ?Hs, <- ?Hc, <- ?Hg; assumption.
Qed.

Lemma core_connSend b channel message :
  core (fst (connSend b channel message)) = core b.
Proof. reflexivity. Qed.

Lemma core_connReact b channel id emoji :
  core (fst (connReact b channel id emoji)) = core b.
Proof. reflexivity. Qed.

Lemma core_sendAll channels message b :
  core (sendAll b channels message) = core b.
Proof.
  revert b. induction channels as [|ch rest IH]; intros b; simpl; [reflexivity|].
  now rewrite IH.
Qed.

Lemma core_Publish b topic message options :
  core (withClient b (fst (client.Publish Do (client b) topic message options))) = core b.
Proof.
  unfold client.Publish.
  destruct (client.applyOptions _ _) as [req [err|]]; [reflexivity|].
  destruct (Do _ _) as [err|code]; [reflexivity|].
  now destruct (299 <? code)%Z.
Qed.

Lemma wf_New conf d b : New conf d = inl b -> wf b.
Proof.
  unfold New. intros H.
  destruct (String.prefix "mem" _); [discriminate|].
  destruct (String.prefix "xoxb-" _); [discriminate|].
  injection H as <-. split; simpl.
  - intros t l Hl. now rewrite lookup_empty in Hl.
  - constructor.
  - intros g Hg. inversion Hg.
  - intros t [l Hl]. now rewrite lookup_empty in Hl.
Qed.

Lemma wf_execPublish c ev b : wf b -> wf (fst (execPublish Do c ev b)).
Proof.
  intros Hwf. unfold execPublish.
  destruct (Nat.ltb _ 2); [exact Hwf|].
  match goal with |- context [client.Publish Do (client b) ?t ?m ?o] =>
    pose proof (core_Publish b t m o) as Hc;
    destruct (client.Publish Do (client b) t m o) as [cl [err|]] end;
    simpl in *; eapply wf_core; try exact Hwf; symmetry; exact Hc.
Qed.

Lemma wf_Subscribe b t :
  wf b -> subscriptions b !! t = None ->
  forall l, l <> [] ->
  wf (withSubscriptions (withClient b (client.Subscribe (client b) t))
        (<[t := l]> (subscriptions b))).
Proof.
  intros [H1 H2 H3 H4] Hnone l Hl. unfold client.Subscribe.
  destruct (client.subscriptions (client b) !! t) as [sub|] eqn:E.
  - split; simpl; try assumption.
    + intros t' l'. rewrite lookup_insert. case_decide; [congruence|apply H1].
    + intros t'. rewrite lookup_insert. case_decide; [subst; now rewrite E|apply H4].
  - split; simpl.
    + intros t' l'. rewrite lookup_insert. case_decide; [congruence|apply H1].
    + rewrite map_app. simpl. apply NoDup_app. split; [exact H2|]. split.
      * intros x Hx Hx'. apply list_elem_of_singleton in Hx'. subst x.
        apply list_elem_of_fmap in Hx as (g & Hg & Hin).
        specialize (H3 g Hin) as [sub Hsub]. rewrite <- Hg in Hsub. congruence.
      * apply NoDup_singleton.
    + intros g Hg. apply elem_of_app in Hg as [Hg|Hg].
      * rewrite lookup_insert. case_decide; [eauto|now apply H3].
      * apply list_elem_of_singleton in Hg. subst g. simpl.
        rewrite lookup_insert_eq. eauto.
    + intros t'. rewrite !lookup_insert. case_decide; [eauto|apply H4].
Qed.

Lemma wf_execSubscribe c ev b : wf b -> wf (fst (execSubscribe c ev b)).
Proof.
  intros Hwf. unfold execSubscribe.
  destruct (Nat.ltb _ 1); [exact Hwf|]. fold (topicURL c).
  eapply wf_core; [symmetry; apply core_connReact|].
  destruct (subscriptions b !! topicURL c) as [l|] eqn:E.
  - rewrite E. simpl. destruct Hwf as [H1 H2 H3 H4]. split; simpl; try assumption.
    + intros t' l'. rewrite lookup_insert. case_decide.
      * intros [= <-]. now destruct l.
      * apply H1.
    + intros t'. rewrite lookup_insert. case_decide; [|apply H4].
      subst t'. intros _. apply H4. now rewrite E.
  - simpl. rewrite lookup_insert_eq. simpl.
    pose proof (wf_Subscribe b (topicURL c) Hwf E [Channel ev]) as H.
    eapply wf_core; [|apply H; discriminate].
    unfold core. simpl. now rewrite insert_insert_eq.
Qed.

Lemma wf_Unsubscribe b t :
  wf b ->
  wf (withSubscriptions (withClient b (client.Unsubscribe (client b) t))
        (delete t (subscriptions b))).
Proof.
  intros [H1 H2 H3 H4].
  assert (Htopics : map client.connTopic
            (client.goroutines (client.Unsubscribe (client b) t)) =
          map client.connTopic (client.goroutines (client b))).
  { unfold client.Unsubscribe. destruct (_ !! t); [|reflexivity].
    simpl. apply connTopic_alter_cancel. }
  assert (Hsubs : client.subscriptions (client.Unsubscribe (client b) t) =
                  client.subscriptions (client b)).
  { unfold client.Unsubscribe. now destruct (_ !! t). }
  split; simpl.
  - intros t' l. rewrite lookup_delete. case_decide; [discriminate|apply H1].
  - now rewrite Htopics.
  - intros g Hg. rewrite Hsubs.
    assert (client.connTopic g ∈ map client.connTopic (client.goroutines (client b))) as Hin.
    { rewrite <- Htopics. now apply list_elem_of_fmap_2. }
    apply list_elem_of_fmap in Hin as (g' & Hg' & Hin). rewrite Hg'. now apply H3.
  - intros t'. rewrite Hsubs, lookup_delete. case_decide.
    + intros [? ?]; discriminate.
    + apply H4.
Qed.

Lemma wf_execUnsubscribe c ev b : wf b -> wf (fst (execUnsubscribe c ev b)).
Proof.
  intros Hwf. destruct (Nat.ltb (cli.NArg c) 1) eqn:En.
  - unfold execUnsubscribe. now rewrite En.
  - apply Nat.ltb_ge in En.
    pose proof (execUnsubscribe_subscriptions c ev b En) as Hs.
    pose proof (execUnsubscribe_client c ev b En) as Hc.
    destruct (subscriptions b !! topicURL c) as [l|] eqn:E.
    + destruct (util.RemoveString l (Channel ev)) as [|x l'] eqn:Er.
      * eapply wf_core; [|apply (wf_Unsubscribe b (topicURL c) Hwf)].
        unfold core. simpl. now rewrite Hs, Hc.
      * destruct Hwf as [H1 H2 H3 H4]. split; rewrite ?Hs, ?Hc; try assumption.
        -- intros t' l''. rewrite lookup_insert. case_decide; [congruence|apply H1].
        -- intros t'. rewrite lookup_insert. case_decide; [|apply H4].
           subst t'. intros _. apply H4. now rewrite E.
    + eapply wf_core; [|exact Hwf]. unfold core. now rewrite Hs, Hc.
Qed.

Lemma wf_runCLI ev args b : wf b -> wf (fst (runCLI Do render ev args b)).
Proof.
  intros Hwf. unfold runCLI.
  destruct (cli.Run (app b) args) as [command c|s|written err]; simpl.
  - destruct (String.eqb command "publish"); [now apply wf_execPublish|].
    destruct (String.eqb command "subscribe"); [now apply wf_execSubscribe|].
    destruct (String.eqb command "unsubscribe"); [now apply wf_execUnsubscribe|].
    exact Hwf.
  - eapply wf_core; [|exact Hwf]. reflexivity.
  - destruct (Nat.ltb 0 _); [|exact Hwf].
    eapply wf_core; [|exact Hwf]. reflexivity.
Qed.

Lemma wf_handleChatMessageEvent ev b :
  wf b -> wf (fst (handleChatMessageEvent Do render ev b)).
Proof.
  intros Hwf. unfold handleChatMessageEvent.
  destruct (Go.Fields (Message ev)) as [|mention rest]; [exact Hwf|].
  destruct (negb _); [exact Hwf|].
  pose proof (wf_runCLI ev (mention :: rest) b Hwf) as H.
  destruct (runCLI Do render ev (mention :: rest) b) as [b' [err|]]; [|exact H].
  eapply wf_core; [|exact H]. reflexivity.
Qed.

Lemma wf_handleSubscriptionMessage m b :
  wf b -> wf (fst (handleSubscriptionMessage m b)).
Proof.
  intros Hwf. unfold handleSubscriptionMessage.
  destruct (negb _); [exact Hwf|].
  destruct (subscriptions b !! _) as [channels|]; [|exact Hwf].
  simpl. eapply wf_core; [symmetry; apply core_sendAll|exact Hwf].
Qed.

(** Every state the bot reaches satisfies the invariant. *)
Lemma reachable_wf b : reachable Do render b -> wf b.
Proof.
  induction 1 as [conf d b HNew|ev b _ IH|m b _ IH].
  - eapply wf_New; eassumption.
  - now apply wf_handleChatMessageEvent.
  - now apply wf_handleSubscriptionMessage.
Qed.

End Invariant.

(** ** The subscription registry *)

Section Registry.

Import bot registry.

Variable Do : list client.Request -> client.Request -> client.DoResult.
Variable render : cli.chunk -> string.

Implicit Types (b : Bot) (c : cli.Context) (ev : messageEvent).

(** C1, as amended: a second subscribe of the same channel to the same
    topic appends the channel once more, so that the topic's list ends with
    two entries for it; the second subscribe neither starts nor cancels a
    connector, the topic has at most one live connector, and exactly one
    when the client had not seen the topic before. *)
Theorem execSubscribe_twice c ev b :
  reachable Do render b ->
  1 <= cli.NArg c ->
  let b1 := fst (execSubscribe c ev b) in
  let b2 := fst (execSubscribe c ev b1) in
  subscriptions b2 !! topicURL c =
    Some (default [] (subscriptions b !! topicURL c) ++ [Channel ev; Channel ev]) /\
  client b2 = client b1 /\
  length (client.liveConnectors (client b2) (topicURL c)) <= 1 /\
  (client.subscriptions (client b) !! topicURL c = None ->
   length (client.liveConnectors (client b2) (topicURL c)) = 1).
Proof.
  intros Hreach Hn b1 b2.
  pose proof (reachable_wf Do render b Hreach) as Hwf.
  assert (Hs1 : subscriptions b1 !! topicURL c =
                Some (default [] (subscriptions b !! topicURL c) ++ [Channel ev])).
  { unfold b1. rewrite execSubscribe_subscriptions by exact Hn.
    apply lookup_insert_eq. }
  assert (Hc : client b2 = client b1).
  { unfold b2. rewrite execSubscribe_client by exact Hn. now rewrite Hs1. }
  split; [|split; [exact Hc|split]].
  - unfold b2. rewrite execSubscribe_subscriptions by exact Hn.
    rewrite lookup_insert_eq, Hs1. simpl. now rewrite <- app_assoc.
  - apply live_at_most_one.
    apply (wf_nodup b2).
    unfold b2. apply wf_execSubscribe. unfold b1. now apply wf_execSubscribe.
  - intros Hnew. rewrite Hc. unfold b1.
    rewrite execSubscribe_client by exact Hn.
    destruct (subscriptions b !! topicURL c) as [l|] eqn:E.
    + destruct (wf_client b Hwf (topicURL c)) as [sub Hsub]; [now rewrite E|].
      congruence.
    + apply Subscribe_starts; [exact Hnew|apply (wf_known b Hwf)].
Qed.

(** C8, as amended: for a channel that is not in the topic's list, and so also for a
    topic without subscriptions, unsubscribe changes neither the
    subscription map nor the client; all it does is the thumbs-up reaction
    that reports success, and it returns what that reaction returns. *)
Theorem execUnsubscribe_absent c ev b :
  reachable Do render b ->
  1 <= cli.NArg c ->
  Channel ev ∉ default [] (subscriptions b !! topicURL c) ->
  subscriptions (fst (execUnsubscribe c ev b)) = subscriptions b /\
  client (fst (execUnsubscribe c ev b)) = client b /\
  calls (conn' (fst (execUnsubscribe c ev b))) =
    calls (conn' b) ++ [React (Channel ev) (ID ev) thumbsUp] /\
  snd (execUnsubscribe c ev b) =
    answer (conn' b) (calls (conn' b)) (React (Channel ev) (ID ev) thumbsUp).
Proof.
  intros Hreach Hn Habsent.
  pose proof (reachable_wf Do render b Hreach) as Hwf.
  rewrite execUnsubscribe_subscriptions, execUnsubscribe_client by exact Hn.
  destruct (execUnsubscribe_reacts c ev b Hn) as [Hcalls Herr].
  destruct (subscriptions b !! topicURL c) as [l|] eqn:E; [|now repeat split].
  simpl in Habsent. rewrite (RemoveString_absent _ _ Habsent).
  destruct l as [|x l]; [now destruct (wf_nonempty b Hwf _ _ E)|].
  repeat split; try assumption.
  now apply insert_id.
Qed.

(** C10: [RemoveString] returns the slice unchanged when the string is
    absent and removes the first occurrence only; a channel that is twice or
    more in a topic's list is still in it after one unsubscribe, which takes
    away one occurrence and leaves the connector alone. *)
Theorem RemoveString_first_occurrence_only
    (s pre post channels : list string) (r : string) c ev b :
  (r ∉ s -> util.RemoveString s r = s) /\
  (r ∉ pre -> util.RemoveString (pre ++ r :: post) r = pre ++ post) /\
  (1 <= cli.NArg c ->
   subscriptions b !! topicURL c = Some channels ->
   2 <= count_occ string_dec channels (Channel ev) ->
   let b' := fst (execUnsubscribe c ev b) in
   subscriptions b' !! topicURL c = Some (util.RemoveString channels (Channel ev)) /\
   Channel ev ∈ util.RemoveString channels (Channel ev) /\
   count_occ string_dec (util.RemoveString channels (Channel ev)) (Channel ev) =
     count_occ string_dec channels (Channel ev) - 1 /\
   client b' = client b).
Proof.
  split; [apply RemoveString_absent|]. split; [apply RemoveString_first|].
  intros Hn Hl Hcount b'.
  assert (Hc : count_occ string_dec (util.RemoveString channels (Channel ev)) (Channel ev) =
               count_occ string_dec channels (Channel ev) - 1).
  { rewrite RemoveString_count. case_decide as H; [now rewrite Nat.sub_1_r|].
    exfalso. apply H. split; [reflexivity|]. apply count_occ_elem_of. lia. }
  assert (Hin : Channel ev ∈ util.RemoveString channels (Channel ev)).
  { apply count_occ_elem_of. lia. }
  unfold b'. rewrite execUnsubscribe_subscriptions, execUnsubscribe_client by exact Hn.
  rewrite Hl. destruct (util.RemoveString channels (Channel ev)) as [|x l] eqn:Er.
  - inversion Hin.
  - rewrite lookup_insert_eq. now repeat split.
Qed.

End Registry.

Section RegistryEvaluated.

Import bot registry.

Lemma reachable_fresh : reachable ok200 plain fresh.
Proof. apply (reach_New _ _ (config.New "token") discord). reflexivity. Qed.

Lemma execSubscribe_twice_witness :
  let c := topicOnly fresh "mytopic" in
  let ev := chat "A" "<@!42> subscribe mytopic" in
  let b2 := fst (execSubscribe c ev (fst (execSubscribe c ev fresh))) in
  reachable ok200 plain fresh /\ 1 <= cli.NArg c /\
  subscriptions b2 !! "https://ntfy.sh/mytopic" = Some ["A"; "A"] /\
  length (client.liveConnectors (client b2) "https://ntfy.sh/mytopic") = 1.
Proof.
  intros c ev b2.
  assert (Hn : 1 <= cli.NArg c) by (cbv; lia).
  destruct (execSubscribe_twice ok200 plain c ev fresh reachable_fresh Hn)
    as (Hs & _ & _ & Hlive).
  split; [exact reachable_fresh|]. split; [exact Hn|]. split.
  - exact Hs.
  - apply Hlive. reflexivity.
Defined.

(** C1 as stated fails: after the second subscribe the topic's list holds
    the channel twice. *)
Lemma subscribe_twice_two_entries :
  let b2 := say "A" "<@!42> subscribe mytopic"
              (say "A" "<@!42> subscribe mytopic" fresh) in
  subscriptions b2 !! "https://ntfy.sh/mytopic" = Some ["A"; "A"] /\
  count_occ string_dec ["A"; "A"] "A" <> 1.
Proof. split; [vm_compute; reflexivity|simpl; lia]. Qed.

(** C2 fails on the code: after a full lifecycle of a topic (subscribe,
    then the last channel unsubscribes: entry deleted, connector
    cancelled), a fresh subscribe puts the channel back into the map but
    starts no connector: [Client.Unsubscribe] has left the topic in the
    client's own map, so [Client.Subscribe] returns at once, and the only
    connector of the topic is the cancelled one. *)
Theorem resubscribe_starts_no_connector :
  let t := "https://ntfy.sh/mytopic" in
  let b1 := say "A" "<@!42> subscribe mytopic" fresh in
  let b2 := say "A" "<@!42> unsubscribe mytopic" b1 in
  let b3 := say "A" "<@!42> subscribe mytopic" b2 in
  (length (client.liveConnectors (client b1) t) = 1 /\
   subscriptions b2 !! t = None /\
   client.liveConnectors (client b2) t = []) /\
  subscriptions b3 !! t = Some ["A"] /\
  client.goroutines (client b3) =
    [{| client.connTopic := t; client.ctxDone := true |}] /\
  client.liveConnectors (client b3) t = [].
Proof. vm_compute. repeat split. Qed.

Lemma execUnsubscribe_absent_witness :
  let b := say "A" "<@!42> subscribe mytopic" fresh in
  let c := topicOnly b "mytopic" in
  let ev := chat "B" "<@!42> unsubscribe mytopic" in
  reachable ok200 plain b /\ 1 <= cli.NArg c /\
  (Channel ev ∉ default [] (subscriptions b !! topicURL c)) /\
  subscriptions (fst (execUnsubscribe c ev b)) = subscriptions b /\
  snd (execUnsubscribe c ev b) = None.
Proof.
  intros b c ev.
  assert (Hr : reachable ok200 plain b) by (apply reach_chat, reachable_fresh).
  assert (Hn : 1 <= cli.NArg c) by (cbv; lia).
  assert (Ha : Channel ev ∉ default [] (subscriptions b !! topicURL c)).
  { vm_compute. intros H. apply list_elem_of_In in H. simpl in H.
    destruct H as [H|[]]. discriminate H. }
  destruct (execUnsubscribe_absent ok200 plain c ev b Hr Hn Ha) as (Hs & _ & _ & He).
  repeat split; try assumption.
Defined.

(** C8 as stated fails: on a platform that refuses the reaction, the
  unsubscribe of a channel that is not subscribed returns the platform's
  error, although the registry is left as it was. *)
Lemma unsubscribe_absent_returns_platform_error :
let c := topicOnly freshDown "unknown-topic" in
let ev := chat "A" "<@!42> unsubscribe unknown-topic" in
reachable ok200 plain freshDown /\ 1 <= cli.NArg c /\
(Channel ev ∉ default [] (subscriptions freshDown !! topicURL c)) /\
subscriptions (fst (execUnsubscribe c ev freshDown)) = subscriptions freshDown /\
snd (execUnsubscribe c ev freshDown) = Some "platform down" /\
snd (handleChatMessageEvent ok200 plain ev freshDown) = Some "platform down".
Proof.
intros c ev.
split; [apply (reach_New _ _ (config.New "token") down); reflexivity|].
split; [cbv; lia|]. split; [|split; [|split]; vm_compute; reflexivity].
vm_compute. intros H. apply list_elem_of_In in H. exact H.
Qed.

Lemma RemoveString_first_occurrence_only_witness :
  let b := say "A" "<@!42> subscribe mytopic"
             (say "A" "<@!42> subscribe mytopic" fresh) in
  let c := topicOnly b "mytopic" in
  let ev := chat "A" "<@!42> unsubscribe mytopic" in
  (("a" ∉ ["b"; "c"]) /\ util.RemoveString ["b"; "c"] "a" = ["b"; "c"]) /\
  (("a" ∉ ["b"]) /\ util.RemoveString (["b"] ++ "a" :: ["c"; "a"]) "a" = ["b"] ++ ["c"; "a"]) /\
  (1 <= cli.NArg c /\ subscriptions b !! topicURL c = Some ["A"; "A"] /\
   2 <= count_occ string_dec ["A"; "A"] (Channel ev) /\
   Channel ev ∈ util.RemoveString ["A"; "A"] (Channel ev)).
Proof.
  intros b c ev.
  destruct (RemoveString_first_occurrence_only ["b"; "c"] ["b"] ["c"; "a"] ["A"; "A"] "a" c ev b)
    as (H1 & H2 & H3).
  assert (Hx : "a" ∉ ["b"; "c"]).
  { intros H. apply list_elem_of_In in H. simpl in H.
    destruct H as [H|[H|[]]]; discriminate H. }
  assert (Ha : "a" ∉ ["b"]).
  { intros H. apply list_elem_of_In in H. simpl in H.
    destruct H as [H|[]]; discriminate H. }
  assert (Hn : 1 <= cli.NArg c) by (cbv; lia).
  assert (Hl : subscriptions b !! topicURL c = Some ["A"; "A"]) by (vm_compute; reflexivity).
  assert (Hc : 2 <= count_occ string_dec ["A"; "A"] (Channel ev)) by (simpl; lia).
  split; [split; [exact Hx|exact (H1 Hx)]|].
  split; [split; [exact Ha|exact (H2 Ha)]|].
  repeat split; try assumption.
  apply (H3 Hn Hl Hc).
Defined.

End RegistryEvaluated.

(** ** The stream connector *)

Section Connector.

Implicit Types (ms : list client.Message) (rest : list client.line).

Lemma scanLines_decoded ms :
client.scanLines (map client.Decoded ms) = (ms, None).
Proof.
induction ms as [|m ms IH]; simpl; [reflexivity|]. now rewrite IH.
Qed.

(** A malformed line ends the attempt with the decoder's error; the lines
  after it are not read. *)
Lemma scanLines_malformed ms err rest :
client.scanLines (map client.Decoded ms ++ client.Malformed err :: rest) =
(ms, Some err).
Proof.
induction ms as [|m ms IH]; simpl; [reflexivity|]. now rewrite IH.
Qed.

(** While the timer wins every [select], the loop goes on. *)
Lemma loop_running topicURL (attempts : list client.attempt) :
client.handleConnectionLoop topicURL (map (fun x => (x, false)) attempts) =
(flat_map (fun x => client.iteration topicURL x ++ [client.After 5]) attempts,
 client.Running).
Proof.
induction attempts as [|x attempts IH]; simpl; [reflexivity|].
rewrite IH. unfold client.retryDelay. now rewrite <- app_assoc.
Qed.

Lemma loop_exits topicURL (attempts : list client.attempt) a later :
client.handleConnectionLoop topicURL
  (map (fun x => (x, false)) attempts ++ (a, true) :: later) =
(flat_map (fun x => client.iteration topicURL x ++ [client.After 5]) attempts
   ++ client.iteration topicURL a
   ++ [client.Log ("connection to " +:+ topicURL +:+ " exited")],
 client.Exited).
Proof.
induction attempts as [|x attempts IH]; simpl; [reflexivity|].
rewrite IH. unfold client.retryDelay. now rewrite <- !app_assoc.
Qed.

Lemma loop_exited_iff topicURL (env : list (client.attempt * bool)) :
snd (client.handleConnectionLoop topicURL env) = client.Exited <->
Exists (fun x => snd x = true) env.
Proof.
induction env as [|[a done] env IH]; simpl.
- split; [discriminate|]. intros H. inversion H.
- destruct done.
  + split; [|reflexivity]. intros _. now left.
  + destruct (client.handleConnectionLoop topicURL env) as [evs st]. simpl in *.
    rewrite IH. split; [now right|].
    intros H. inversion H as [? ? Hx|? ? Hx]; subst; [discriminate|exact Hx].
Qed.

(** What the loop does in one pass is what is to be seen of the way the
    attempt ends. *)
Lemma iteration_seen topicURL (x : connector.ending) :
  client.iteration topicURL (connector.attemptOf x) = connector.seen topicURL x.
Proof.
  destruct x as [err|err|ms err rest|ms]; unfold client.iteration; simpl.
  - reflexivity.
  - reflexivity.
  - rewrite scanLines_malformed. reflexivity.
  - rewrite scanLines_decoded. simpl. now rewrite app_nil_r.
Qed.

(** Every attempt ends in one of the four ways. *)
Lemma attempt_ending (a : client.attempt) : exists x, a = connector.attemptOf x.
Proof.
  destruct a as [err|err|lines].
  - now exists (connector.CannotBuild err).
  - now exists (connector.CannotConnect err).
  - assert (H : (exists ms, lines = map client.Decoded ms) \/
                (exists ms err rest,
                   lines = map client.Decoded ms ++ client.Malformed err :: rest)).
    { induction lines as [|[m|err] lines IH].
      - left. now exists [].
      - destruct IH as [[ms ->]|(ms & err & rest & ->)].
        + left. now exists (m :: ms).
        + right. now exists (m :: ms), err, rest.
      - right. now exists [], err, lines. }
    destruct H as [[ms ->]|(ms & err & rest & ->)].
    + now exists (connector.StreamEnds ms).
    + now exists (connector.BadLine ms err rest).
Qed.

(** C5: however an attempt ends (the request cannot be built, the
    connection fails, a line does not decode, the stream ends), the loop
    then waits 5 seconds and starts over with a new GET of the topic's feed,
    as long as the [select] does not see the cancellation: after any number
    of attempts without cancellation the loop is still running, and what it
    has done is, attempt by attempt, the GET, the messages of the stream up
    to its end or to the first malformed line, the log line of the failure,
    and the wait.  It exits at the first [select] that sees the
    cancellation, without waiting, and only then.  Every attempt ends in one
    of these ways. *)
Theorem handleConnectionLoop_retries topicURL
    (endings : list connector.ending) (x : connector.ending)
    (later env : list (client.attempt * bool)) (a : client.attempt) :
  client.handleConnectionLoop topicURL
      (map (fun y => (connector.attemptOf y, false)) endings) =
    (flat_map (fun y => connector.seen topicURL y ++ [client.After 5]) endings,
     client.Running) /\
  client.handleConnectionLoop topicURL
      (map (fun y => (connector.attemptOf y, false)) endings
         ++ (connector.attemptOf x, true) :: later) =
    (flat_map (fun y => connector.seen topicURL y ++ [client.After 5]) endings
       ++ connector.seen topicURL x
       ++ [client.Log ("connection to " +:+ topicURL +:+ " exited")],
     client.Exited) /\
  (snd (client.handleConnectionLoop topicURL env) = client.Exited <->
   Exists (fun y => snd y = true) env) /\
  (exists y, a = connector.attemptOf y).
Proof.
  split; [|split; [|split; [apply loop_exited_iff|apply attempt_ending]]].
  - induction endings as [|y endings IH]; [reflexivity|].
    simpl. rewrite IH, iteration_seen. unfold client.retryDelay.
    now rewrite <- app_assoc.
  - induction endings as [|y endings IH].
    + simpl. now rewrite iteration_seen.
    + simpl. rewrite IH, iteration_seen. unfold client.retryDelay.
      now rewrite <- !app_assoc.
Qed.

Lemma handleConnectionLoop_retries_witness :
  let env := [(client.ConnectError "refused", false);
              (client.Stream [client.Malformed "bad json"], false);
              (client.Stream [], true)] in
  Exists (fun x => snd x = true) env /\
  client.handleConnectionLoop "https://ntfy.sh/mytopic" env =
    ([client.Get "https://ntfy.sh/mytopic/json";
      client.Log "connection to https://ntfy.sh/mytopic failed: refused";
      client.After 5;
      client.Get "https://ntfy.sh/mytopic/json";
      client.Log "connection to https://ntfy.sh/mytopic failed: bad json";
      client.After 5;
      client.Get "https://ntfy.sh/mytopic/json";
      client.Log "connection to https://ntfy.sh/mytopic exited"],
     client.Exited).
Proof.
  intros env.
  assert (He : Exists (fun x => snd x = true) env).
  { unfold env. right. right. left. reflexivity. }
  split; [exact He|].
  destruct (handleConnectionLoop_retries "https://ntfy.sh/mytopic"
              [connector.CannotConnect "refused"; connector.BadLine [] "bad json" []]
              (connector.StreamEnds []) [] env (client.Stream []))
    as (_ & Hexit & _ & _).
  exact Hexit.
Defined.

End Connector.

(** ** The message router *)

Section Router.

Import bot registry.

Implicit Types (b : Bot) (m : client.Message).

Lemma sendAll_calls channels message b :
calls (conn' (sendAll b channels message)) =
calls (conn' b) ++ map (fun channel => Send channel message) channels.
Proof.
revert b. induction channels as [|ch rest IH]; intros b; simpl.
- now rewrite app_nil_r.
- rewrite IH. simpl. now rewrite <- app_assoc.
Qed.

(** Fan-out for a topic of the server [https://ntfy.sh]: one [Send] per
  entry of the topic's list, in order, all with the same text. *)
Lemma fanout_default_server m b channels :
client.Event m = "message" ->
subscriptions b !! ("https://ntfy.sh/" +:+ client.Topic m) = Some channels ->
calls (conn' (fst (handleSubscriptionMessage m b))) =
calls (conn' b) ++
map (fun channel =>
       Send channel ("**ntfy.sh/" +:+ client.Topic m +:+ "** " +:+ client.Message' m))
    channels.
Proof.
intros He Hs. unfold handleSubscriptionMessage.
rewrite He, Hs. simpl. apply sendAll_calls.
Qed.

(** C6, as amended: the connector sends every record it has decoded to the
  message channel, whatever its event kind (all of them up to the end of
  the stream or to the first malformed line); the router drops a message
  whose event kind is not "message" without any call to the chat
  adapter. *)
Theorem only_message_events_reach_chat (ms : list client.Message)
  (err : string) (rest : list client.line) m b :
fst (client.handleConnection (client.Stream (map client.Decoded ms))) = ms /\
fst (client.handleConnection
       (client.Stream (map client.Decoded ms ++ client.Malformed err :: rest))) = ms /\
(client.Event m <> "message" -> handleSubscriptionMessage m b = (b, None)).
Proof.
simpl. rewrite scanLines_decoded, scanLines_malformed.
split; [reflexivity|]. split; [reflexivity|].
intros Hne. unfold handleSubscriptionMessage.
destruct (String.eqb_spec (client.Event m) "message"); [contradiction|reflexivity].
Qed.

Lemma only_message_events_reach_chat_witness :
let m := notification "keepalive" "mytopic" "" in
let b := say "A" "<@!42> subscribe mytopic" fresh in
client.Event m <> "message" /\
handleSubscriptionMessage m b = (b, None) /\
fst (client.handleConnection (client.Stream [client.Decoded m])) = [m].
Proof.
intros m b.
assert (Hne : client.Event m <> "message") by discriminate.
destruct (only_message_events_reach_chat [m] "" [] m b) as (H1 & _ & H3).
split; [exact Hne|]. split; [exact (H3 Hne)|exact H1].
Defined.

(** C6 as stated fails: the connector sends a keep-alive record to the
  message channel. *)
Lemma connector_pushes_keepalive :
let m := notification "keepalive" "mytopic" "" in
client.Event m <> "message" /\
client.handleConnectionLoop "https://ntfy.sh/mytopic"
  [(client.Stream [client.Decoded m], true)] =
  ([client.Get "https://ntfy.sh/mytopic/json"; client.Push m;
    client.Log "connection to https://ntfy.sh/mytopic exited"], client.Exited).
Proof. split; [discriminate|reflexivity]. Qed.

(** C3 fails on the code: two channels subscribe to [mytopic] of the server
  [https://example.com]; the router looks a message of that topic up under
  [https://ntfy.sh/mytopic], finds nothing, and sends nothing. *)
Theorem fanout_ignores_server :
let b := say "B" "<@!42> subscribe --server=https://example.com mytopic"
           (say "A" "<@!42> subscribe --server=https://example.com mytopic" fresh) in
let m := notification "message" "mytopic" "hello" in
subscriptions b !! "https://example.com/mytopic" = Some ["A"; "B"] /\
calls (conn' (fst (handleSubscriptionMessage m b))) = calls (conn' b) /\
Forall (fun x => match x with Send _ _ => False | React _ _ _ => True end)
       (calls (conn' (fst (handleSubscriptionMessage m b)))).
Proof.
vm_compute. split; [reflexivity|]. split; [reflexivity|].
repeat constructor.
Qed.

End Router.

(** ** Publishing *)

Section Publishing.

Import bot registry.

Variable Do : list client.Request -> client.Request -> client.DoResult.
Variable render : cli.chunk -> string.

Implicit Types (b : Bot) (c : client.Client) (ev : messageEvent).

Lemma list_ascii_app (s1 s2 : string) :
list_ascii_of_string (s1 +:+ s2) = list_ascii_of_string s1 ++ list_ascii_of_string s2.
Proof. induction s1 as [|a s1 IH]; simpl; [reflexivity|]. now rewrite IH. Qed.

Lemma string_app_inv_tail (s1 s2 t : string) : s1 +:+ t = s2 +:+ t -> s1 = s2.
Proof.
intros H. apply (f_equal list_ascii_of_string) in H.
rewrite !list_ascii_app in H. apply app_inv_tail in H.
rewrite <- (string_of_list_ascii_of_string s1), <- (string_of_list_ascii_of_string s2).
now rewrite H.
Qed.

(** The text of the error for a status code tells the code. *)
Lemma status_text_inj (code code' : Z) :
"unexpected response " +:+ Go.itoa code +:+ " from server" =
"unexpected response " +:+ Go.itoa code' +:+ " from server" ->
code = code'.
Proof.
intros H. apply String.app_inj in H. apply string_app_inv_tail in H.
unfold Go.itoa in H. now apply pretty_Z_inj in H.
Qed.

(** The options the bot passes never fail. *)
Lemma applyOptions_bot title priority tags (req : client.Request) :
snd (client.applyOptions
       [client.WithTitle title; client.WithPriority priority; client.WithTags tags]
       req) = None.
Proof.
unfold client.WithTitle, client.WithPriority, client.WithTags. simpl.
destruct (String.eqb title ""), (String.eqb priority ""), (String.eqb tags "");
  reflexivity.
Qed.


Lemma execPublish_request (c : cli.Context) ev b topic words :
cli.Args c = topic :: words -> words <> [] ->
exists req,
  fst (client.applyOptions
         [client.WithTitle (cli.String c "title");
          client.WithPriority (cli.String c "priority");
          client.WithTags (cli.String c "tags")]
         {| client.Method := "POST";
            client.URL := cli.String c "server" +:+ "/" +:+ topic;
            client.Body := Go.Join words " ";
            client.Header := ∅ |}) = req /\
  client.requests (client (fst (execPublish Do c ev b))) =
    client.requests (client b) ++ [req].
Proof.
intros Hargs Hwords. eexists. split; [reflexivity|].
unfold execPublish, cli.NArg, cli.First. rewrite Hargs.
destruct words as [|w words]; [contradiction|]. cbn [length Nat.ltb Nat.leb tail].
unfold client.Publish.
match goal with |- context [client.applyOptions ?o ?r] =>
  pose proof (applyOptions_bot (cli.String c "title") (cli.String c "priority")
                (cli.String c "tags") r) as Hnone;
  destruct (client.applyOptions o r) as [req' e] end.
simpl in Hnone. subst e. simpl.
destruct (Do _ _) as [err|code]; [reflexivity|].
now destruct (299 <? code)%Z.
Qed.

End Publishing.

Section PublishingEvaluated.

Import bot registry.


End PublishingEvaluated.

(** ** The command dispatcher *)

Section Dispatcher.

Import bot registry.

Variable Do : list client.Request -> client.Request -> client.DoResult.
Variable render : cli.chunk -> string.

Implicit Types (b : Bot) (ev : messageEvent).

(** C7, as amended: with the flag before the topic, where the commands'
  usage texts put the options, the line
  [publish --title=Hi mytopic hello world] after the mention makes exactly
  one request: a POST to [<baseURL>/mytopic] with body [hello world] and
  the title [Hi]. *)
Theorem publish_command_line ev b :
MentionBot (conn' b) = "<@!42>" ->
Message ev = "<@!42> publish --title=Hi mytopic hello world" ->
client.requests (client (fst (handleChatMessageEvent Do render ev b))) =
client.requests (client b) ++
[{| client.Method := "POST";
    client.URL := config.BaseURL (config b) +:+ "/mytopic";
    client.Body := "hello world";
    client.Header := <["X-Title" := "Hi"]> ∅ |}].
Proof.
intros Hmention Htext. unfold handleChatMessageEvent. rewrite Htext, Hmention.
change (Go.Fields "<@!42> publish --title=Hi mytopic hello world")
  with ["<@!42>"; "publish"; "--title=Hi"; "mytopic"; "hello"; "world"].
cbn [String.eqb Ascii.eqb Bool.eqb negb].
set (c := {| cli.flagSet :=
               [serverFlag b; cli.StringFlag "title" ["t"] "";
                cli.StringFlag "priority" ["p"] ""; cli.StringFlag "tags" ["ta"] "";
                cli.HelpFlag];
             cli.visited := [("title", "Hi")];
             cli.Args := ["mytopic"; "hello"; "world"] |}).
assert (Hrun : runCLI Do render ev
                 ["<@!42>"; "publish"; "--title=Hi"; "mytopic"; "hello"; "world"] b =
               execPublish Do c ev b) by reflexivity.
rewrite Hrun.
destruct (execPublish_request Do c ev b "mytopic" ["hello"; "world"] eq_refl)
  as (req & Hreq & Hrequests); [discriminate|].
assert (Hsame : client.requests (client (fst
          match execPublish Do c ev b with
          | (b', Some err) => connSend b' (Channel ev) err
          | (b', None) => (b', None)
          end)) = client.requests (client (fst (execPublish Do c ev b)))).
{ now destruct (execPublish Do c ev b) as [b' [err|]]. }
rewrite Hsame, Hrequests. f_equal. f_equal. rewrite <- Hreq. reflexivity.
Qed.

End Dispatcher.

Section DispatcherEvaluated.

Import bot registry.

Lemma publish_command_line_witness :
let ev := chat "A" "<@!42> publish --title=Hi mytopic hello world" in
MentionBot (conn' fresh) = "<@!42>" /\
Message ev = "<@!42> publish --title=Hi mytopic hello world" /\
client.requests (client (say "A" "<@!42> publish --title=Hi mytopic hello world" fresh)) =
[{| client.Method := "POST";
    client.URL := "https://ntfy.sh/mytopic";
    client.Body := "hello world";
    client.Header := <["X-Title" := "Hi"]> ∅ |}].
Proof.
intros ev. split; [reflexivity|]. split; [reflexivity|].
exact (publish_command_line ok200 plain ev fresh eq_refl eq_refl).
Defined.

(** C7 as stated fails: in the order of the claim the flag comes after the
  topic, where flag parsing has stopped; [--title=Hi] is the last word of
  the message body and no title is set. *)
Lemma trailing_title_flag_is_message_text :
client.requests
  (client (say "A" "<@!42> publish mytopic hello world --title=Hi" fresh)) =
[{| client.Method := "POST";
    client.URL := "https://ntfy.sh/mytopic";
    client.Body := "hello world --title=Hi";
    client.Header := ∅ |}].
Proof. vm_compute. reflexivity. Qed.

(** C4 fails on the code: the dispatcher splits the text at white space and
  nothing else, so a quoted argument with a space in it reaches the command
  as two tokens, quotes included; the subscribe below is for a topic
    named by a double quote followed by [my]. *)
Theorem quoted_argument_is_split :
let text := "<@!42> subscribe " +:+ quote +:+ "my topic" +:+ quote in
Go.Fields text = ["<@!42>"; "subscribe"; quote +:+ "my"; "topic" +:+ quote] /\
subscriptions (say "A" text fresh) !! ("https://ntfy.sh/" +:+ quote +:+ "my") =
  Some ["A"] /\
subscriptions (say "A" text fresh) !! "https://ntfy.sh/my topic" = None.
Proof. vm_compute. repeat split. Qed.

End DispatcherEvaluated.

(** * Further properties of the code *)

(** ** util.ShortURL *)

Section ShortURLFacts.

(** X1: [ShortURL] takes one scheme prefix off: [https://] always; [http://]
    too, and then a [https://] that follows it as well; a string with
    neither prefix is returned as it is. *)
Theorem ShortURL_strips_scheme (s r : string) :
  util.ShortURL ("https://" +:+ r) = r /\
  util.ShortURL ("http://" +:+ r) = Go.TrimPrefix r "https://" /\
  util.ShortURL ("http://https://" +:+ r) = r /\
  (Go.stripPrefix "http://" s = None -> Go.stripPrefix "https://" s = None ->
   util.ShortURL s = s).
Proof.
  split; [reflexivity|]. split; [reflexivity|]. split; [reflexivity|].
  intros H1 H2. unfold util.ShortURL, Go.TrimPrefix. now rewrite H1, H2.
Qed.

Lemma ShortURL_strips_scheme_witness :
  Go.stripPrefix "http://" "ntfy.sh/mytopic" = None /\
  Go.stripPrefix "https://" "ntfy.sh/mytopic" = None /\
  util.ShortURL "ntfy.sh/mytopic" = "ntfy.sh/mytopic" /\
  util.ShortURL "https://ntfy.sh/mytopic" = "ntfy.sh/mytopic".
Proof.
  destruct (ShortURL_strips_scheme "ntfy.sh/mytopic" "ntfy.sh/mytopic")
    as (H1 & _ & _ & H4).
  split; [reflexivity|]. split; [reflexivity|].
  split; [exact (H4 eq_refl eq_refl)|exact H1].
Defined.

End ShortURLFacts.

(** ** The client *)

Section ClientMore.

Variable Do : list client.Request -> client.Request -> client.DoResult.

Implicit Types (c : client.Client) (t : string).

(** X2: [Subscribe] is idempotent: the second call for a topic changes
    nothing.  A call starts at most one connector, after the ones that
    exist, which it leaves as they are, and the topic is known to the client
    afterwards. *)
Theorem Subscribe_idempotent c t :
  client.Subscribe (client.Subscribe c t) t = client.Subscribe c t /\
  (exists started,
     client.goroutines (client.Subscribe c t) = client.goroutines c ++ started /\
     length started <= 1 /\
     Forall (fun g => client.connTopic g = t /\ client.ctxDone g = false) started) /\
  is_Some (client.subscriptions (client.Subscribe c t) !! t).
Proof.
  destruct (client.subscriptions c !! t) as [sub|] eqn:E.
  - assert (Hc : client.Subscribe c t = c) by (apply Subscribe_known; rewrite E; eauto).
    rewrite !Hc. split; [reflexivity|]. split; [|rewrite E; eauto].
    exists []. rewrite app_nil_r. repeat split; [simpl; lia|constructor].
  - assert (Hk : is_Some (client.subscriptions (client.Subscribe c t) !! t)).
    { unfold client.Subscribe. rewrite E. simpl. rewrite lookup_insert_eq. eauto. }
    split; [now apply Subscribe_known|]. split; [|exact Hk].
    unfold client.Subscribe. rewrite E. simpl.
    eexists. split; [reflexivity|]. split; [simpl; lia|].
    repeat constructor.
Qed.

(** X3: for a topic URL that parses, the request that [Publish] makes with
    the bot's options: a POST to the topic URL with the message as body, and
    of the headers [X-Title], [X-Priority] and [X-Tags] exactly those whose
    value is not empty.  [Publish] makes this one request and touches
    neither the client's subscriptions nor its connectors. *)
Theorem Publish_request c topicURL message title priority tags :
  registry.plainURL topicURL = true ->
  let c' := fst (client.Publish Do c topicURL message
                   [client.WithTitle title; client.WithPriority priority;
                    client.WithTags tags]) in
  let optional (v : string) := if String.eqb v "" then None else Some v in
  exists req,
    client.requests c' = client.requests c ++ [req] /\
    client.Method req = "POST" /\
    client.URL req = topicURL /\
    client.Body req = message /\
    client.Header req !! "X-Title" = optional title /\
    client.Header req !! "X-Priority" = optional priority /\
    client.Header req !! "X-Tags" = optional tags /\
    (forall k, k <> "X-Title" -> k <> "X-Priority" -> k <> "X-Tags" ->
       client.Header req !! k = None) /\
    client.subscriptions c' = client.subscriptions c /\
    client.goroutines c' = client.goroutines c.
Proof.
  intros _ c' optional. unfold c', optional, client.Publish.
  unfold client.WithTitle, client.WithPriority, client.WithTags. simpl.
  destruct (String.eqb title ""), (String.eqb priority ""), (String.eqb tags "");
    simpl; (eexists; split;
      [destruct (Do _ _) as [err|code]; [reflexivity|];
       destruct (299 <? code)%Z; reflexivity|]);
    simpl; repeat split;
    try (destruct (Do _ _) as [err|code]; [reflexivity|];
         destruct (299 <? code)%Z; reflexivity);
    try (intros k Hk1 Hk2 Hk3);
    rewrite ?lookup_insert_eq, ?lookup_insert_ne, ?lookup_empty by congruence;
    try reflexivity;
    repeat (rewrite lookup_insert_ne by congruence);
    rewrite ?lookup_insert_eq, ?lookup_empty; reflexivity.
Qed.

End ClientMore.

Section ClientMoreEvaluated.

Lemma Publish_request_witness :
  registry.plainURL "https://ntfy.sh/mytopic" = true /\
  exists req,
    client.requests
      (fst (client.Publish registry.ok200 client.New "https://ntfy.sh/mytopic" "hello"
              [client.WithTitle "Hi"; client.WithPriority ""; client.WithTags ""])) =
      [req] /\
    client.URL req = "https://ntfy.sh/mytopic" /\
    client.Header req !! "X-Title" = Some "Hi" /\
    client.Header req !! "X-Priority" = None.
Proof.
  split; [reflexivity|].
  destruct (Publish_request registry.ok200 client.New "https://ntfy.sh/mytopic" "hello"
              "Hi" "" "" eq_refl)
    as (req & H1 & _ & H3 & _ & H5 & H6 & _).
  exists req. split; [exact H1|]. split; [exact H3|]. split; [exact H5|exact H6].
Defined.

End ClientMoreEvaluated.

(** ** More on the registry *)

Section RegistryMore.

Import bot registry.

Variable Do : list client.Request -> client.Request -> client.DoResult.
Variable render : cli.chunk -> string.

Implicit Types (b : Bot) (c : cli.Context) (ev : messageEvent).

Lemma core_execPublish c ev b : core (fst (execPublish Do c ev b)) = core b.
Proof.
  unfold execPublish. destruct (Nat.ltb _ 2); [reflexivity|].
  match goal with |- context [client.Publish Do (client b) ?t ?m ?o] =>
    pose proof (core_Publish Do b t m o) as Hc;
    destruct (client.Publish Do (client b) t m o) as [cl [err|]] end;
    exact Hc.
Qed.

(** To show that a property of the registry holds in every state the bot
    reaches, it is enough to look at [New] and at the two commands that
    write the registry. *)
Lemma reachable_commands (P : Bot -> Prop) :
  (forall b b', core b = core b' -> P b -> P b') ->
  (forall conf d b, New conf d = inl b -> P b) ->
  (forall c ev b, reachable Do render b -> P b -> P (fst (execSubscribe c ev b))) ->
  (forall c ev b, reachable Do render b -> P b -> P (fst (execUnsubscribe c ev b))) ->
  forall b, reachable Do render b -> P b.
Proof.
  intros Hcore HNew Hsub Hunsub b Hreach.
  induction Hreach as [conf d b HN|ev b Hreach IH|m b Hreach IH].
  - eapply HNew; eassumption.
  - assert (Hrun : forall args, P (fst (runCLI Do render ev args b))).
    { intros args. unfold runCLI.
      destruct (cli.Run (app b) args) as [command c|s|written err]; simpl.
      - destruct (String.eqb command "publish").
        { eapply Hcore; [symmetry; apply core_execPublish|exact IH]. }
        destruct (String.eqb command "subscribe"); [now apply Hsub|].
        destruct (String.eqb command "unsubscribe"); [now apply Hunsub|exact IH].
      - eapply Hcore; [|exact IH]. reflexivity.
      - destruct (Nat.ltb 0 _); [|exact IH]. eapply Hcore; [|exact IH]. reflexivity. }
    unfold handleChatMessageEvent.
    destruct (Go.Fields (Message ev)) as [|mention rest]; [exact IH|].
    destruct (negb _); [exact IH|].
    specialize (Hrun (mention :: rest)).
    destruct (runCLI Do render ev (mention :: rest) b) as [b' [err|]]; [|exact Hrun].
    eapply Hcore; [|exact Hrun]. reflexivity.
  - unfold handleSubscriptionMessage.
    destruct (negb _); [exact IH|].
    destruct (subscriptions b !! _) as [channels|]; [|exact IH].
    simpl. eapply Hcore; [symmetry; apply core_sendAll|exact IH].
Qed.

Lemma indexed_core b b' : core b = core b' -> indexed b -> indexed b'.
Proof.
  unfold core, indexed. intros [= Hs Hc Hg]. rewrite <- Hc, <- Hg. auto.
Qed.

Lemma indexed_Subscribe b b' t :
  indexed b -> client b' = client.Subscribe (client b) t -> indexed b'.
Proof.
  unfold indexed. intros Hi ->. unfold client.Subscribe.
  destruct (client.subscriptions (client b) !! t) as [sub0|] eqn:E; [exact Hi|].
  simpl. intros t0 sub. rewrite lookup_insert. case_decide as Ht.
  - intros [= <-]. subst t0. simpl.
    now rewrite (list_lookup_middle _ [] _ (length (client.goroutines (client b)))).
  - intros Hsub. specialize (Hi t0 sub Hsub).
    destruct (client.goroutines (client b) !! client.cancel sub) as [g|] eqn:Eg;
      [|discriminate].
    now rewrite (lookup_app_l_Some _ _ _ _ Eg).
Qed.

Lemma indexed_Unsubscribe b b' t :
  indexed b -> client b' = client.Unsubscribe (client b) t -> indexed b'.
Proof.
  unfold indexed. intros Hi ->. unfold client.Unsubscribe.
  destruct (client.subscriptions (client b) !! t) as [sub0|] eqn:E; [|exact Hi].
  simpl. intros t0 sub Hsub. specialize (Hi t0 sub Hsub).
  rewrite <- list_lookup_fmap in *.
  change (fmap client.connTopic) with (map client.connTopic) in *.
  now rewrite connTopic_alter_cancel.
Qed.

Lemma reachable_indexed b : reachable Do render b -> indexed b.
Proof.
  apply reachable_commands.
  - apply indexed_core.
  - intros conf d b0 HN. unfold New in HN.
    destruct (String.prefix "mem" _); [discriminate|].
    destruct (String.prefix "xoxb-" _); [discriminate|].
    injection HN as <-. intros t sub. simpl. now rewrite lookup_empty.
  - intros c ev b0 _ Hi. destruct (Nat.ltb (cli.NArg c) 1) eqn:En.
    + unfold execSubscribe. now rewrite En.
    + apply Nat.ltb_ge in En.
      pose proof (execSubscribe_client c ev b0 En) as Hc.
      destruct (subscriptions b0 !! topicURL c).
      * unfold indexed. rewrite Hc. exact Hi.
      * eapply indexed_Subscribe; eassumption.
  - intros c ev b0 _ Hi. destruct (Nat.ltb (cli.NArg c) 1) eqn:En.
    + unfold execUnsubscribe. now rewrite En.
    + apply Nat.ltb_ge in En.
      pose proof (execUnsubscribe_client c ev b0 En) as Hc.
      destruct (subscriptions b0 !! topicURL c) as [l|].
      * destruct (util.RemoveString l (Channel ev)).
        -- eapply indexed_Unsubscribe; eassumption.
        -- unfold indexed. rewrite Hc. exact Hi.
      * unfold indexed. rewrite Hc. exact Hi.
Qed.

(** Cancelling a connector leaves the live connectors of another topic as
    they are. *)
Lemma filter_alter_other {A} (f : A -> bool) (h : A -> A) i (l : list A) :
  (forall x, l !! i = Some x -> f x = false /\ f (h x) = false) ->
  List.filter f (alter h i l) = List.filter f l.
Proof.
  revert i. induction l as [|x l IH]; intros [|i] H; simpl; try reflexivity.
  - destruct (H x eq_refl) as [-> ->]. reflexivity.
  - change (list_alter h i l) with (alter h i l).
    rewrite IH; [reflexivity|]. intros y Hy. apply H. exact Hy.
Qed.

Lemma Unsubscribe_live_other b t t' :
  indexed b -> t' <> t ->
  client.liveConnectors (client.Unsubscribe (client b) t) t' =
  client.liveConnectors (client b) t'.
Proof.
  intros Hi Hne. unfold client.liveConnectors, client.Unsubscribe.
  destruct (client.subscriptions (client b) !! t) as [sub|] eqn:E; [|reflexivity].
  simpl. apply filter_alter_other. intros g Hg.
  specialize (Hi t sub E). rewrite Hg in Hi. simpl in Hi. injection Hi as Ht.
  unfold client.isLive. simpl. rewrite Ht.
  destruct (String.eqb_spec t t'); [congruence|]. now split.
Qed.

Lemma Unsubscribe_not_live b t :
  wf b -> indexed b -> is_Some (client.subscriptions (client b) !! t) ->
  client.liveConnectors (client.Unsubscribe (client b) t) t = [].
Proof.
  intros Hwf Hi [sub E]. unfold client.liveConnectors, client.Unsubscribe.
  rewrite E. simpl. apply filter_none. intros g Hin.
  apply list_elem_of_In, list_elem_of_lookup in Hin as [j Hj].
  specialize (Hi t sub E).
  destruct (client.goroutines (client b) !! client.cancel sub) as [g0|] eqn:E0;
    [|discriminate].
  simpl in Hi. injection Hi as Ht.
  destruct (decide (j = client.cancel sub)) as [->|Hne].
  - rewrite list_lookup_alter_eq, E0 in Hj. simpl in Hj. injection Hj as <-.
    unfold client.isLive. simpl. apply andb_false_r.
  - rewrite list_lookup_alter_ne in Hj by congruence.
    unfold client.isLive.
    destruct (String.eqb_spec (client.connTopic g) t) as [Hg|]; [|reflexivity].
    exfalso. apply Hne.
    apply (NoDup_lookup (map client.connTopic (client.goroutines (client b))) _ _ t).
    + apply (wf_nodup b Hwf).
    + change (map client.connTopic) with (fmap (M:=list) client.connTopic).
      now rewrite list_lookup_fmap, Hj; simpl; rewrite Hg.
    + change (map client.connTopic) with (fmap (M:=list) client.connTopic).
      now rewrite list_lookup_fmap, E0; simpl; rewrite Ht.
Qed.

Lemma Subscribe_live_other (cl : client.Client) t t' :
  t' <> t ->
  client.liveConnectors (client.Subscribe cl t) t' = client.liveConnectors cl t'.
Proof.
  intros Hne. unfold client.liveConnectors, client.Subscribe.
  destruct (client.subscriptions cl !! t); [reflexivity|]. simpl.
  rewrite List.filter_app. simpl. unfold client.isLive at 2. simpl.
  destruct (String.eqb_spec t t'); [congruence|]. simpl. apply app_nil_r.
Qed.

(** X4: in every state the bot reaches, no topic is kept with an empty
    channel list, every topic of the bot's map is known to the client, the
    client has started at most one connector per topic, so that at most one
    connector of a topic is live, and the cancel function kept for a topic
    belongs to a connector of that topic. *)
Theorem reachable_invariant b :
  reachable Do render b ->
  (forall t l, subscriptions b !! t = Some l -> l <> []) /\
  (forall t, is_Some (subscriptions b !! t) ->
             is_Some (client.subscriptions (client b) !! t)) /\
  NoDup (map client.connTopic (client.goroutines (client b))) /\
  (forall t, length (client.liveConnectors (client b) t) <= 1) /\
  (forall t sub, client.subscriptions (client b) !! t = Some sub ->
     exists g, client.goroutines (client b) !! client.cancel sub = Some g /\
               client.connTopic g = t).
Proof.
  intros Hreach.
  pose proof (reachable_wf Do render b Hreach) as [H1 H2 H3 H4].
  pose proof (reachable_indexed b Hreach) as Hi.
  split; [exact H1|]. split; [exact H4|]. split; [exact H2|]. split.
  - intros t. now apply live_at_most_one.
  - intros t sub Hsub. specialize (Hi t sub Hsub).
    destruct (client.goroutines (client b) !! client.cancel sub) as [g|]; [|discriminate].
    exists g. split; [reflexivity|]. now injection Hi.
Qed.

(** X5: when the only channel of a topic unsubscribes, the topic leaves the
    map and no connector of the topic is live any more; no connector is
    started or removed. *)
Theorem execUnsubscribe_last c ev b :
  reachable Do render b ->
  1 <= cli.NArg c ->
  subscriptions b !! topicURL c = Some [Channel ev] ->
  let b' := fst (execUnsubscribe c ev b) in
  subscriptions b' !! topicURL c = None /\
  client.liveConnectors (client b') (topicURL c) = [] /\
  length (client.goroutines (client b')) = length (client.goroutines (client b)).
Proof.
  intros Hreach Hn Hl b'.
  pose proof (reachable_wf Do render b Hreach) as Hwf.
  pose proof (reachable_indexed b Hreach) as Hi.
  unfold b'. rewrite execUnsubscribe_subscriptions, execUnsubscribe_client by exact Hn.
  rewrite Hl. rewrite RemoveString_cons, String.eqb_refl.
  split; [apply lookup_delete_eq|]. split.
  - apply Unsubscribe_not_live; try assumption.
    apply (wf_client b Hwf). rewrite Hl. eauto.
  - unfold client.Unsubscribe.
    destruct (client.subscriptions (client b) !! topicURL c); [|reflexivity].
    simpl. apply length_alter.
Qed.

(** X6: subscribe and unsubscribe leave every other topic alone: its
    channel list and its live connectors are the same before and after. *)
Theorem commands_touch_own_topic c ev b t :
  reachable Do render b ->
  t <> topicURL c ->
  (subscriptions (fst (execSubscribe c ev b)) !! t = subscriptions b !! t /\
   client.liveConnectors (client (fst (execSubscribe c ev b))) t =
     client.liveConnectors (client b) t) /\
  (subscriptions (fst (execUnsubscribe c ev b)) !! t = subscriptions b !! t /\
   client.liveConnectors (client (fst (execUnsubscribe c ev b))) t =
     client.liveConnectors (client b) t).
Proof.
  intros Hreach Hne.
  pose proof (reachable_indexed b Hreach) as Hi.
  destruct (Nat.ltb (cli.NArg c) 1) eqn:En.
  { unfold execSubscribe, execUnsubscribe. rewrite En. now repeat split. }
  apply Nat.ltb_ge in En. split.
  - rewrite execSubscribe_subscriptions, execSubscribe_client by exact En.
    split; [now apply lookup_insert_ne|].
    destruct (subscriptions b !! topicURL c); [reflexivity|].
    now apply Subscribe_live_other.
  - rewrite execUnsubscribe_subscriptions, execUnsubscribe_client by exact En.
    destruct (subscriptions b !! topicURL c) as [l|]; [|now split].
    destruct (util.RemoveString l (Channel ev)).
    + split; [now apply lookup_delete_ne|]. now apply Unsubscribe_live_other.
    + split; [now apply lookup_insert_ne|reflexivity].
Qed.

(** X7: a subscribe followed by the unsubscribe of the same channel, which
    was not in the topic's list before, gives back the subscription map as
    it was. *)
Theorem subscribe_unsubscribe_restores c ev b :
  reachable Do render b ->
  1 <= cli.NArg c ->
  Channel ev ∉ default [] (subscriptions b !! topicURL c) ->
  subscriptions (fst (execUnsubscribe c ev (fst (execSubscribe c ev b)))) =
  subscriptions b.
Proof.
  intros Hreach Hn Habsent.
  pose proof (reachable_wf Do render b Hreach) as Hwf.
  rewrite execUnsubscribe_subscriptions, execSubscribe_subscriptions by exact Hn.
  rewrite lookup_insert_eq.
  rewrite (RemoveString_first _ [] _ Habsent), app_nil_r.
  destruct (subscriptions b !! topicURL c) as [l|] eqn:E; simpl.
  - destruct l as [|x l]; [now destruct (wf_nonempty b Hwf _ _ E)|].
    rewrite insert_insert_eq. now apply insert_id.
  - rewrite delete_insert_eq. now apply delete_id.
Qed.

(** X8: an unsubscribe takes nothing but its own channel away: any other
    channel of the topic stays in the list, as many times as before. *)
Theorem unsubscribe_keeps_other_channels c ev b channels other :
  1 <= cli.NArg c ->
  subscriptions b !! topicURL c = Some channels ->
  other ∈ channels ->
  other <> Channel ev ->
  exists channels',
    subscriptions (fst (execUnsubscribe c ev b)) !! topicURL c = Some channels' /\
    other ∈ channels' /\
    count_occ string_dec channels' other = count_occ string_dec channels other.
Proof.
  intros Hn Hl Hin Hne.
  assert (Hc : count_occ string_dec (util.RemoveString channels (Channel ev)) other =
               count_occ string_dec channels other).
  { rewrite RemoveString_count. rewrite decide_False; [reflexivity|].
    intros [Heq _]. contradiction. }
  assert (Hin' : other ∈ util.RemoveString channels (Channel ev)).
  { apply count_occ_elem_of. rewrite Hc. now apply count_occ_elem_of. }
  rewrite execUnsubscribe_subscriptions by exact Hn. rewrite Hl.
  destruct (util.RemoveString channels (Channel ev)) as [|x l] eqn:Er.
  - inversion Hin'.
  - exists (x :: l). rewrite lookup_insert_eq. now repeat split.
Qed.

End RegistryMore.

(** ** More on the command dispatcher *)

Section DispatcherMore.

Import bot registry.

Variable Do : list client.Request -> client.Request -> client.DoResult.
Variable render : cli.chunk -> string.

Implicit Types (b : Bot) (ev : messageEvent).

(** Flag parsing stops at a token that is not a flag. *)
Lemma Parse_nonflag formal visited (s : string) rest :
  isFlag s = false ->
  cli.Parse formal visited (s :: rest) = cli.Parsed visited (s :: rest).
Proof.
  intros H. destruct s as [|a [|a2 s2]]; try reflexivity.
  all: destruct a as [[] [] [] [] [] [] [] []]; try reflexivity.
  cbv in H. discriminate H.
Qed.

Lemma Run_command b (p name : string) (args : list string) (c : cli.Command) :
  isFlag name = false ->
  cli.findCommand (cli.Commands (app b) ++ [cli.helpCommand]) name = Some c ->
  cli.Run (app b) (p :: name :: args) =
  cli.RunCommand (cli.Commands (app b) ++ [cli.helpCommand]) c args.
Proof.
  intros Hname Hfind. unfold cli.Run. cbn [List.tail].
  rewrite (Parse_nonflag _ _ _ _ Hname). cbn [cli.normalizeFlags].
  change (List.filter _ (cli.Names cli.HelpFlag)) with (@nil string).
  cbn iota.
  change (cli.Bool _ "help") with false. cbn iota.
  now rewrite Hfind.
Qed.

Lemma Parse_positional formal visited (args : list string) :
  positional args = true ->
  cli.Parse formal visited args = cli.Parsed visited args.
Proof.
  destruct args as [|a rest]; [reflexivity|]. simpl. intros H.
  apply Parse_nonflag. now apply negb_true_iff.
Qed.

Lemma Run_publish b (p name : string) (args : list string) :
  In name ["publish"; "send"] ->
  positional args = true ->
  cli.Run (app b) (p :: name :: args) =
  cli.Invoke "publish" (plainContext (publishFlags b) args).
Proof.
  intros Hname Hargs.
  destruct Hname as [<-|[<-|[]]];
    (erewrite Run_command; [|reflexivity|reflexivity]);
    unfold cli.RunCommand; rewrite (Parse_positional _ _ _ Hargs); reflexivity.
Qed.

Lemma Run_subscribe b (p name : string) (args : list string) :
  In name ["subscribe"; "sub"; "add"] ->
  positional args = true ->
  cli.Run (app b) (p :: name :: args) =
  cli.Invoke "subscribe" (plainContext [serverFlag b] args).
Proof.
  intros Hname Hargs.
  destruct Hname as [<-|[<-|[<-|[]]]];
    (erewrite Run_command; [|reflexivity|reflexivity]);
    unfold cli.RunCommand; rewrite (Parse_positional _ _ _ Hargs); reflexivity.
Qed.

Lemma Run_unsubscribe b (p name : string) (args : list string) :
  In name ["unsubscribe"; "del"; "rm"] ->
  positional args = true ->
  cli.Run (app b) (p :: name :: args) =
  cli.Invoke "unsubscribe" (plainContext [serverFlag b] args).
Proof.
  intros Hname Hargs.
  destruct Hname as [<-|[<-|[<-|[]]]];
    (erewrite Run_command; [|reflexivity|reflexivity]);
    unfold cli.RunCommand; rewrite (Parse_positional _ _ _ Hargs); reflexivity.
Qed.

(** X9: the dispatcher finds a command under its name and under each of its
    aliases, and calls it with the arguments after the name; when no flag is
    given the server is the configured base URL, and title, priority and
    tags are empty. *)
Theorem runCLI_dispatch ev b (p name : string) (args : list string) :
  positional args = true ->
  (In name ["publish"; "send"] ->
   runCLI Do render ev (p :: name :: args) b =
     execPublish Do (plainContext (publishFlags b) args) ev b) /\
  (In name ["subscribe"; "sub"; "add"] ->
   runCLI Do render ev (p :: name :: args) b =
     execSubscribe (plainContext [serverFlag b] args) ev b) /\
  (In name ["unsubscribe"; "del"; "rm"] ->
   runCLI Do render ev (p :: name :: args) b =
     execUnsubscribe (plainContext [serverFlag b] args) ev b) /\
  cli.Args (plainContext [serverFlag b] args) = args /\
  cli.String (plainContext [serverFlag b] args) "server" = config.BaseURL (config b) /\
  cli.String (plainContext (publishFlags b) args) "server" = config.BaseURL (config b) /\
  cli.String (plainContext (publishFlags b) args) "title" = "" /\
  cli.String (plainContext (publishFlags b) args) "priority" = "" /\
  cli.String (plainContext (publishFlags b) args) "tags" = "".
Proof.
  intros Hargs. repeat split; try reflexivity; intros Hname; unfold runCLI.
  - now rewrite (Run_publish b p name args Hname Hargs).
  - now rewrite (Run_subscribe b p name args Hname Hargs).
  - now rewrite (Run_unsubscribe b p name args Hname Hargs).
Qed.

End DispatcherMore.

Section DispatcherFlags.

Import bot registry.

Variable Do : list client.Request -> client.Request -> client.DoResult.
Variable render : cli.chunk -> string.

Implicit Types (b : Bot) (ev : messageEvent).

Lemma Run_subscribe_server b (p name url : string) (args : list string) :
  In name ["subscribe"; "sub"; "add"] ->
  positional args = true ->
  cli.Run (app b) (p :: name :: ("--server=" +:+ url) :: args) =
    cli.Invoke "subscribe"
      {| cli.flagSet := [serverFlag b; cli.HelpFlag];
         cli.visited := [("server", url)]; cli.Args := args |} /\
  cli.Run (app b) (p :: name :: "-s" :: url :: args) =
    cli.Invoke "subscribe"
      {| cli.flagSet := [serverFlag b; cli.HelpFlag];
         cli.visited := [("s", url)]; cli.Args := args |}.
Proof.
  intros Hname Hargs.
  assert (Hlong : forall formal,
            cli.Parse (serverFlag b :: formal) [] (("--server=" +:+ url) :: args) =
            cli.Parse (serverFlag b :: formal) [("server", url)] args) by reflexivity.
  assert (Hshort : forall formal,
            cli.Parse (serverFlag b :: formal) [] ("-s" :: url :: args) =
            cli.Parse (serverFlag b :: formal) [("s", url)] args) by reflexivity.
  destruct Hname as [<-|[<-|[<-|[]]]]; split;
    (erewrite Run_command; [|reflexivity|reflexivity]);
    unfold cli.RunCommand; cbn [app cli.Commands cli.cmdFlags List.app];
    rewrite ?Hlong, ?Hshort, (Parse_positional _ _ _ Hargs); reflexivity.
Qed.

(** X10: the server given with [--server=URL], or with [-s URL], before the
    topic takes the place of the configured base URL in the key: the channel
    is added to the list of [URL/topic]. *)
Theorem subscribe_with_server ev b (p name url topic : string) (rest : list string) :
  In name ["subscribe"; "sub"; "add"] ->
  isFlag topic = false ->
  let key := url +:+ "/" +:+ topic in
  let expected :=
    <[key := default [] (subscriptions b !! key) ++ [Channel ev]]> (subscriptions b) in
  subscriptions (fst (runCLI Do render ev
                        (p :: name :: ("--server=" +:+ url) :: topic :: rest) b)) =
    expected /\
  subscriptions (fst (runCLI Do render ev (p :: name :: "-s" :: url :: topic :: rest) b)) =
    expected.
Proof.
  intros Hname Htopic key expected.
  assert (Hargs : positional (topic :: rest) = true) by (simpl; now rewrite Htopic).
  destruct (Run_subscribe_server b p name url (topic :: rest) Hname Hargs) as [Hl Hs].
  unfold runCLI. rewrite Hl, Hs. cbn [String.eqb Ascii.eqb Bool.eqb].
  split; (rewrite execSubscribe_subscriptions by (unfold cli.NArg; simpl; lia)); reflexivity.
Qed.

(** X11: a first word that is no flag and names no command is answered
    with the text [command not found: ] followed by the word; nothing else
    happens and no error is returned. *)
Theorem runCLI_command_not_found ev b (p name : string) (args : list string) :
  isFlag name = false ->
  ~ In name commandNames ->
  runCLI Do render ev (p :: name :: args) b =
  (fst (connSend b (Channel ev) ("command not found: " +:+ name)), None).
Proof.
  intros Hflag Hname.
  assert (Hne : forall n, In n commandNames -> String.eqb name n = false).
  { intros n Hn. apply String.eqb_neq. intros ->. contradiction. }
  assert (Hfind : cli.findCommand (cli.Commands (app b) ++ [cli.helpCommand]) name = None).
  { unfold cli.findCommand, cli.HasName. simpl.
    rewrite !Hne by (unfold commandNames; simpl; tauto). reflexivity. }
  unfold runCLI, cli.Run. cbn [List.tail].
  rewrite (Parse_nonflag _ _ _ _ Hflag). cbn [cli.normalizeFlags].
  change (List.filter _ (cli.Names cli.HelpFlag)) with (@nil string). cbn iota.
  change (cli.Bool _ "help") with false. cbn iota.
  rewrite Hfind. unfold cli.ShowCommandHelp. rewrite Hfind. reflexivity.
Qed.

(** X12: a command without the arguments it needs changes nothing and
    returns the text that says what is missing: subscribe and unsubscribe
    without a topic, publish without a topic or without a message. *)
Theorem runCLI_missing_arguments ev b (p name : string) (args : list string) :
  (In name ["subscribe"; "sub"; "add"; "unsubscribe"; "del"; "rm"] ->
   runCLI Do render ev [p; name] b =
     (b, Some "missing server address, see --help for usage details")) /\
  (In name ["publish"; "send"] ->
   positional args = true ->
   length args < 2 ->
   runCLI Do render ev (p :: name :: args) b =
     (b, Some "topic and/or message missing")).
Proof.
  split.
  - intros Hname. unfold runCLI. simpl in Hname.
    destruct Hname as [<-|[<-|[<-|Hname]]];
      [rewrite (Run_subscribe b p _ []) by (simpl; tauto); reflexivity ..|].
    destruct Hname as [<-|[<-|[<-|[]]]];
      rewrite (Run_unsubscribe b p _ []) by (simpl; tauto); reflexivity.
  - intros Hname Hargs Hlen. unfold runCLI.
    rewrite (Run_publish b p name args Hname Hargs).
    cbn [String.eqb Ascii.eqb Bool.eqb]. unfold execPublish, cli.NArg.
    cbn [plainContext cli.Args].
    now apply Nat.ltb_lt in Hlen as ->.
Qed.

End DispatcherFlags.

(** ** Chat lines *)

Section ChatLines.

Import bot registry.

Variable Do : list client.Request -> client.Request -> client.DoResult.
Variable render : cli.chunk -> string.

Implicit Types (b : Bot) (ev : messageEvent) (w acc rest : string).

Lemma string_app_cons (a : ascii) (s t : string) :
  String a s +:+ t = String a (s +:+ t).
Proof. reflexivity. Qed.

Lemma string_app_empty_r (s : string) : s +:+ "" = s.
Proof.
  induction s as [|a s IH]; [reflexivity|]. now rewrite string_app_cons, IH.
Qed.

Lemma string_app_snoc (a : ascii) (s t : string) :
  (s +:+ String a "") +:+ t = s +:+ String a t.
Proof.
  induction s as [|a' s IH]; [reflexivity|]. now rewrite !string_app_cons, IH.
Qed.

Lemma fieldsFrom_word w acc rest :
  forallb wordChar (list_ascii_of_string w) = true ->
  Go.fieldsFrom (Some acc) (w +:+ rest) = Go.fieldsFrom (Some (acc +:+ w)) rest.
Proof.
  revert acc. induction w as [|a w IH]; intros acc Hw.
  - now rewrite string_app_empty_r.
  - simpl in Hw. apply andb_true_iff in Hw as [Ha Hw].
    unfold wordChar in Ha. apply andb_true_iff in Ha as [Ha _].
    apply negb_true_iff in Ha.
    rewrite string_app_cons. cbn [Go.fieldsFrom]. rewrite Ha.
    rewrite (IH _ Hw). now rewrite string_app_snoc.
Qed.

Lemma fieldsFrom_start w rest :
  isWord w = true ->
  Go.fieldsFrom None (w +:+ rest) = Go.fieldsFrom (Some w) rest.
Proof.
  unfold isWord. intros H. apply andb_true_iff in H as [Hne Hw].
  destruct w as [|a w]; [discriminate|].
  simpl in Hw. apply andb_true_iff in Hw as [Ha Hw].
  unfold wordChar in Ha. apply andb_true_iff in Ha as [Ha _].
  apply negb_true_iff in Ha.
  rewrite string_app_cons. cbn [Go.fieldsFrom]. rewrite Ha.
  now rewrite (fieldsFrom_word _ _ _ Hw).
Qed.

(** Splitting what was joined with single spaces gives the words back. *)
Lemma Fields_Join (ws : list string) :
  Forall (fun w => isWord w = true) ws ->
  Go.Fields (Go.Join ws " ") = ws.
Proof.
  unfold Go.Fields. induction ws as [|w ws IH]; intros Hws; [reflexivity|].
  apply Forall_cons in Hws as [Hw Hws].
  destruct ws as [|w2 ws].
  - simpl. rewrite <- (string_app_empty_r w) at 1.
    now rewrite (fieldsFrom_start _ _ Hw).
  - change (Go.Join (w :: w2 :: ws) " ") with (w +:+ " " +:+ Go.Join (w2 :: ws) " ").
    rewrite (fieldsFrom_start _ _ Hw).
    change (" " +:+ Go.Join (w2 :: ws) " ") with (String " " (Go.Join (w2 :: ws) " ")).
    cbn [Go.fieldsFrom]. change (Go.isSpace " ") with true. cbn iota.
    now rewrite (IH Hws).
Qed.

(** X13: a chat line that consists of the mention and of words, with one
    space between them, is dispatched with exactly these words as
    arguments; an error that the command returns is sent to the channel as
    text, and what that [Send] returns is the result. *)
Theorem chat_line_is_dispatched ev b (args : list string) :
  Forall (fun w => isWord w = true) (MentionBot (conn' b) :: args) ->
  Message ev = Go.Join (MentionBot (conn' b) :: args) " " ->
  handleChatMessageEvent Do render ev b =
  match runCLI Do render ev (MentionBot (conn' b) :: args) b with
  | (b', Some err) => connSend b' (Channel ev) err
  | (b', None) => (b', None)
  end.
Proof.
  intros Hwords Htext. unfold handleChatMessageEvent.
  rewrite Htext, (Fields_Join _ Hwords), String.eqb_refl. reflexivity.
Qed.

(** X14: the line [publish <topic> <words>] after the mention (or [send]
    for [publish]), the topic not looking like a flag and the URL
    [<baseURL>/<topic>] one that parses, makes exactly one request: a POST to [<baseURL>/<topic>] whose body is the words joined by
    single spaces, without any of the optional headers; words after the
    topic that look like flags are part of the body. *)
Theorem chat_publish ev b (name topic word : string) (words : list string) :
  Forall (fun w => isWord w = true)
         (MentionBot (conn' b) :: name :: topic :: word :: words) ->
  In name ["publish"; "send"] ->
  isFlag topic = false ->
  plainURL (config.BaseURL (config b) +:+ "/" +:+ topic) = true ->
  Message ev = Go.Join (MentionBot (conn' b) :: name :: topic :: word :: words) " " ->
  client.requests (client (fst (handleChatMessageEvent Do render ev b))) =
  client.requests (client b) ++
  [{| client.Method := "POST";
      client.URL := config.BaseURL (config b) +:+ "/" +:+ topic;
      client.Body := Go.Join (word :: words) " ";
      client.Header := ∅ |}].
Proof.
  intros Hwords Hname Htopic _ Htext. unfold handleChatMessageEvent.
  rewrite Htext, (Fields_Join _ Hwords), String.eqb_refl. cbn [negb].
  assert (Hargs : positional (topic :: word :: words) = true)
    by (simpl; now rewrite Htopic).
  unfold runCLI. rewrite (Run_publish b _ name _ Hname Hargs).
  cbn [String.eqb Ascii.eqb Bool.eqb].
  set (c := plainContext (publishFlags b) (topic :: word :: words)).
  destruct (execPublish_request Do c ev b topic (word :: words) eq_refl)
    as (req & Hreq & Hrequests); [discriminate|].
  assert (Hsame : client.requests (client (fst
            match execPublish Do c ev b with
            | (b', Some err) => connSend b' (Channel ev) err
            | (b', None) => (b', None)
            end)) = client.requests (client (fst (execPublish Do c ev b)))).
  { now destruct (execPublish Do c ev b) as [b' [err|]]. }
  rewrite Hsame, Hrequests. f_equal. f_equal. rewrite <- Hreq. reflexivity.
Qed.

(** A chat message whose first word is not the mention of the bot is
    ignored: no state changes, nothing is sent, no error. *)
Lemma chat_not_addressed ev b :
  head (Go.Fields (Message ev)) <> Some (MentionBot (conn' b)) ->
  handleChatMessageEvent Do render ev b = (b, None).
Proof.
  intros H. unfold handleChatMessageEvent.
  destruct (Go.Fields (Message ev)) as [|mention rest]; [reflexivity|].
  destruct (String.eqb_spec mention (MentionBot (conn' b))) as [->|]; [|reflexivity].
  now contradiction H.
Qed.

End ChatLines.

(** ** The router's loop *)

Section RouterLoop.

Import bot registry.

Implicit Types (b : Bot) (m : client.Message).



End RouterLoop.

(** ** The Discord connection and the start of the bot *)

Section Discord.

Lemma spanNotGt_run (user rest : string) :
  discord.noGt user = true ->
  discord.spanNotGt (user +:+ String ">" rest) = (user, String ">" rest).
Proof.
  unfold discord.noGt. induction user as [|a user IH]; intros H; [reflexivity|].
  simpl in H. apply andb_true_iff in H as [Ha H]. apply negb_true_iff in Ha.
  change (String a user +:+ String ">" rest) with (String a (user +:+ String ">" rest)).
  cbn [discord.spanNotGt]. rewrite Ha, (IH H). reflexivity.
Qed.

Lemma spanNotGt_all (s : string) :
  discord.noGt s = true -> discord.spanNotGt s = (s, "").
Proof.
  unfold discord.noGt. induction s as [|a s IH]; intros H; [reflexivity|].
  simpl in H. apply andb_true_iff in H as [Ha H]. apply negb_true_iff in Ha.
  cbn [discord.spanNotGt]. rewrite Ha, (IH H). reflexivity.
Qed.

Lemma noGt_stripPrefix (p s r : string) :
  discord.noGt s = true -> Go.stripPrefix p s = Some r -> discord.noGt r = true.
Proof.
  revert s. induction p as [|a p IH]; intros s Hs Hr.
  - simpl in Hr. now injection Hr as <-.
  - destruct s as [|c s]; [discriminate|]. simpl in Hr.
    destruct (Ascii.eqb a c); [|discriminate].
    unfold discord.noGt in Hs. simpl in Hs. apply andb_true_iff in Hs as [_ Hs].
    eapply IH; eassumption.
Qed.

Lemma matchHere_noGt (s : string) :
  discord.noGt s = true -> discord.matchHere s = None.
Proof.
  intros Hs. unfold discord.matchHere.
  destruct (Go.stripPrefix "<@!" s) as [r|] eqn:E; [|reflexivity].
  rewrite (spanNotGt_all r (noGt_stripPrefix _ _ _ Hs E)).
  now destruct r.
Qed.

Lemma FindStringSubmatch_noGt (s : string) :
  discord.noGt s = true -> discord.FindStringSubmatch s = None.
Proof.
  induction s as [|a s IH]; intros Hs.
  - reflexivity.
  - cbn [discord.FindStringSubmatch]. rewrite (matchHere_noGt _ Hs).
    apply IH. unfold discord.noGt in *. simpl in Hs.
    now apply andb_true_iff in Hs as [_ Hs].
Qed.

(** X18: [ParseMention] reads back the user id that [Mention] (and
    [MentionBot]) wrote, for an id that is not empty and has no ['>'] in it;
    a text without any ['>'], and the mention of the empty id, are not
    mentions: the error is [invalid user]. *)
Theorem ParseMention_Mention (user s : string) :
  (user <> "" -> discord.noGt user = true ->
   discord.ParseMention (discord.Mention user) = (user, None) /\
   discord.ParseMention (discord.MentionBot user) = (user, None)) /\
  (discord.noGt s = true ->
   discord.ParseMention s = ("", Some "invalid user")) /\
  discord.ParseMention (discord.Mention "") = ("", Some "invalid user").
Proof.
  split; [|split; [|reflexivity]].
  - intros Hne Hgt.
    assert (H : discord.ParseMention (discord.Mention user) = (user, None)).
    { unfold discord.ParseMention, discord.Mention.
      destruct user as [|a user]; [contradiction|].
      assert (Hm : discord.matchHere ("<@!" +:+ String a user +:+ ">") =
                   Some (String a user)).
      { unfold discord.matchHere.
        change (Go.stripPrefix "<@!" ("<@!" +:+ String a user +:+ ">"))
          with (Some (String a user +:+ ">")).
        cbv beta iota.
        rewrite (spanNotGt_run (String a user) "" Hgt). reflexivity. }
      change ("<@!" +:+ String a user +:+ ">")
        with (String "<" ("@!" +:+ String a user +:+ ">")) in *.
      cbn [discord.FindStringSubmatch]. now rewrite Hm. }
    split; exact H.
  - intros Hs. unfold discord.ParseMention.
    now rewrite (FindStringSubmatch_noGt _ Hs).
Qed.

Lemma ParseMention_Mention_witness :
  "42" <> "" /\ discord.noGt "42" = true /\ discord.noGt "everyone" = true /\
  discord.ParseMention "<@!42>" = ("42", None) /\
  discord.ParseMention "everyone" = ("", Some "invalid user").
Proof.
  destruct (ParseMention_Mention "42" "everyone") as (H1 & H2 & _).
  assert (Hne : "42" <> "") by discriminate.
  split; [exact Hne|]. split; [reflexivity|]. split; [reflexivity|].
  split; [exact (proj1 (H1 Hne eq_refl))|exact (H2 eq_refl)].
Defined.

(** X19: [New] makes a bot exactly for a token of the Discord kind, one that
    starts neither with [mem] nor with [xoxb-]; the bot then has the given
    configuration, no subscription and a client without topics, connectors
    or requests.  For the other tokens it fails with [invalid type: ]
    followed by the platform, [mem] before [slack]. *)
Theorem New_platform (conf : config.Config) (d : bot.conn) :
  (config.Platform conf = config.Discord ->
   bot.New conf d =
     inl {| bot.config := conf; bot.conn' := d; bot.client := client.New;
            bot.subscriptions := ∅ |}) /\
  (config.Platform conf <> config.Discord ->
   bot.New conf d = inr ("invalid type: " +:+ config.Platform conf)) /\
  (String.prefix "mem" (config.Token conf) = true ->
   config.Platform conf = config.Mem).
Proof.
  unfold config.Platform, bot.New.
  destruct (String.prefix "mem" (config.Token conf));
    [|destruct (String.prefix "xoxb-" (config.Token conf))];
    repeat split; try reflexivity; try discriminate; intros H; try reflexivity;
    try discriminate H; now contradiction H.
Qed.

Lemma New_platform_witness :
  config.Platform (config.New "token") = config.Discord /\
  config.Platform (config.New "xoxb-1") <> config.Discord /\
  String.prefix "mem" (config.Token (config.New "memxoxb-")) = true /\
  bot.New (config.New "token") registry.discord = inl registry.fresh /\
  bot.New (config.New "xoxb-1") registry.discord = inr "invalid type: slack" /\
  config.Platform (config.New "memxoxb-") = config.Mem.
Proof.
  destruct (New_platform (config.New "token") registry.discord) as (H1 & _ & _).
  destruct (New_platform (config.New "xoxb-1") registry.discord) as (_ & H2 & _).
  destruct (New_platform (config.New "memxoxb-") registry.discord) as (_ & _ & H3).
  assert (Hs : config.Platform (config.New "xoxb-1") <> config.Discord) by discriminate.
  split; [reflexivity|]. split; [exact Hs|]. split; [reflexivity|].
  split; [exact (H1 eq_refl)|]. split; [exact (H2 Hs)|exact (H3 eq_refl)].
Defined.

End Discord.

(** ** The further properties at concrete inputs *)

Section MoreEvaluated.

Import bot registry.

Lemma reachable_subscribed :
  reachable ok200 plain (say "A" "<@!42> subscribe mytopic" fresh).
Proof. apply reach_chat, reachable_fresh. Qed.

Lemma reachable_invariant_witness :
  let b := say "A" "<@!42> subscribe mytopic" fresh in
  reachable ok200 plain b /\
  length (client.liveConnectors (client b) "https://ntfy.sh/mytopic") <= 1 /\
  NoDup (map client.connTopic (client.goroutines (client b))).
Proof.
  intros b.
  destruct (reachable_invariant ok200 plain b reachable_subscribed)
    as (_ & _ & Hnd & Hlive & _).
  split; [exact reachable_subscribed|]. split; [apply Hlive|exact Hnd].
Defined.

Lemma execUnsubscribe_last_witness :
  let b := say "A" "<@!42> subscribe mytopic" fresh in
  let c := topicOnly b "mytopic" in
  let ev := chat "A" "<@!42> unsubscribe mytopic" in
  reachable ok200 plain b /\ 1 <= cli.NArg c /\
  subscriptions b !! topicURL c = Some [Channel ev] /\
  subscriptions (fst (execUnsubscribe c ev b)) !! topicURL c = None /\
  client.liveConnectors (client (fst (execUnsubscribe c ev b))) (topicURL c) = [].
Proof.
  intros b c ev.
  assert (Hn : 1 <= cli.NArg c) by (cbv; lia).
  assert (Hl : subscriptions b !! topicURL c = Some [Channel ev])
    by (vm_compute; reflexivity).
  destruct (execUnsubscribe_last ok200 plain c ev b reachable_subscribed Hn Hl)
    as (H1 & H2 & _).
  split; [exact reachable_subscribed|]. split; [exact Hn|]. split; [exact Hl|].
  split; [exact H1|exact H2].
Defined.

Lemma commands_touch_own_topic_witness :
  let b := say "A" "<@!42> subscribe mytopic" fresh in
  let c := topicOnly b "other" in
  let ev := chat "B" "<@!42> subscribe other" in
  let t := "https://ntfy.sh/mytopic" in
  reachable ok200 plain b /\ t <> topicURL c /\
  subscriptions (fst (execSubscribe c ev b)) !! t = Some ["A"] /\
  subscriptions (fst (execUnsubscribe c ev b)) !! t = Some ["A"].
Proof.
  intros b c ev t.
  assert (Hne : t <> topicURL c) by (intros H; vm_compute in H; discriminate H).
  destruct (commands_touch_own_topic ok200 plain c ev b t reachable_subscribed Hne)
    as ((H1 & _) & (H2 & _)).
  split; [exact reachable_subscribed|]. split; [exact Hne|].
  split; [rewrite H1|rewrite H2]; vm_compute; reflexivity.
Defined.

Lemma subscribe_unsubscribe_restores_witness :
  let c := topicOnly fresh "mytopic" in
  let ev := chat "A" "<@!42> subscribe mytopic" in
  reachable ok200 plain fresh /\ 1 <= cli.NArg c /\
  (Channel ev ∉ default [] (subscriptions fresh !! topicURL c)) /\
  subscriptions (fst (execUnsubscribe c ev (fst (execSubscribe c ev fresh)))) =
    subscriptions fresh.
Proof.
  intros c ev.
  assert (Hn : 1 <= cli.NArg c) by (cbv; lia).
  assert (Ha : Channel ev ∉ default [] (subscriptions fresh !! topicURL c)).
  { vm_compute. intros H. apply list_elem_of_In in H. exact H. }
  split; [exact reachable_fresh|]. split; [exact Hn|]. split; [exact Ha|].
  exact (subscribe_unsubscribe_restores ok200 plain c ev fresh reachable_fresh Hn Ha).
Defined.

Lemma unsubscribe_keeps_other_channels_witness :
  let b := say "B" "<@!42> subscribe mytopic" (say "A" "<@!42> subscribe mytopic" fresh) in
  let c := topicOnly b "mytopic" in
  let ev := chat "A" "<@!42> unsubscribe mytopic" in
  1 <= cli.NArg c /\
  subscriptions b !! topicURL c = Some ["A"; "B"] /\
  ("B" ∈ ["A"; "B"]) /\ "B" <> Channel ev /\
  exists channels',
    subscriptions (fst (execUnsubscribe c ev b)) !! topicURL c = Some channels' /\
    "B" ∈ channels'.
Proof.
  intros b c ev.
  assert (Hn : 1 <= cli.NArg c) by (cbv; lia).
  assert (Hl : subscriptions b !! topicURL c = Some ["A"; "B"])
    by (vm_compute; reflexivity).
  assert (Hin : "B" ∈ ["A"; "B"]) by (apply list_elem_of_In; simpl; tauto).
  assert (Hne : "B" <> Channel ev) by discriminate.
  destruct (unsubscribe_keeps_other_channels c ev b ["A"; "B"] "B" Hn Hl Hin Hne)
    as (l & H1 & H2 & _).
  split; [exact Hn|]. split; [exact Hl|]. split; [exact Hin|]. split; [exact Hne|].
  exists l. split; assumption.
Defined.

Lemma runCLI_dispatch_witness :
  let ev := chat "A" "<@!42> sub mytopic" in
  positional ["mytopic"] = true /\ In "sub" ["subscribe"; "sub"; "add"] /\
  runCLI ok200 plain ev ["<@!42>"; "sub"; "mytopic"] fresh =
    execSubscribe (plainContext [serverFlag fresh] ["mytopic"]) ev fresh.
Proof.
  intros ev.
  destruct (runCLI_dispatch ok200 plain ev fresh "<@!42>" "sub" ["mytopic"] eq_refl)
    as (_ & Hs & _).
  assert (Hin : In "sub" ["subscribe"; "sub"; "add"]) by (simpl; tauto).
  split; [reflexivity|]. split; [exact Hin|exact (Hs Hin)].
Defined.

Lemma subscribe_with_server_witness :
  let ev := chat "A" "<@!42> add --server=https://example.com alerts" in
  In "add" ["subscribe"; "sub"; "add"] /\ isFlag "alerts" = false /\
  subscriptions (fst (runCLI ok200 plain ev
     ["<@!42>"; "add"; "--server=https://example.com"; "alerts"] fresh))
    !! "https://example.com/alerts" = Some ["A"].
Proof.
  intros ev.
  assert (Hin : In "add" ["subscribe"; "sub"; "add"]) by (simpl; tauto).
  destruct (subscribe_with_server ok200 plain ev fresh "<@!42>" "add"
              "https://example.com" "alerts" [] Hin eq_refl) as [H _].
  split; [exact Hin|]. split; [reflexivity|].
  change ("--server=https://example.com") with ("--server=" +:+ "https://example.com").
  rewrite H. vm_compute. reflexivity.
Defined.

Lemma runCLI_command_not_found_witness :
  let ev := chat "A" "<@!42> hello there" in
  isFlag "hello" = false /\ ~ In "hello" commandNames /\
  calls (conn' (fst (runCLI ok200 plain ev ["<@!42>"; "hello"; "there"] fresh))) =
    [Send "A" "command not found: hello"].
Proof.
  intros ev.
  assert (Hn : ~ In "hello" commandNames).
  { intros H. cbv in H. repeat (destruct H as [H|H]; [discriminate H|]). exact H. }
  split; [reflexivity|]. split; [exact Hn|].
  now rewrite (runCLI_command_not_found ok200 plain ev fresh "<@!42>" "hello"
                 ["there"] eq_refl Hn).
Defined.

Lemma runCLI_missing_arguments_witness :
  let ev := chat "A" "<@!42> send mytopic" in
  In "rm" ["subscribe"; "sub"; "add"; "unsubscribe"; "del"; "rm"] /\
  In "send" ["publish"; "send"] /\
  positional ["mytopic"] = true /\ length ["mytopic"] < 2 /\
  runCLI ok200 plain ev ["<@!42>"; "rm"] fresh =
    (fresh, Some "missing server address, see --help for usage details") /\
  runCLI ok200 plain ev ["<@!42>"; "send"; "mytopic"] fresh =
    (fresh, Some "topic and/or message missing").
Proof.
  intros ev.
  destruct (runCLI_missing_arguments ok200 plain ev fresh "<@!42>" "rm" ["mytopic"])
    as [H1 _].
  destruct (runCLI_missing_arguments ok200 plain ev fresh "<@!42>" "send" ["mytopic"])
    as [_ H2].
  assert (Hrm : In "rm" ["subscribe"; "sub"; "add"; "unsubscribe"; "del"; "rm"])
    by (simpl; tauto).
  assert (Hsend : In "send" ["publish"; "send"]) by (simpl; tauto).
  assert (Hlen : length ["mytopic"] < 2) by (simpl; lia).
  split; [exact Hrm|]. split; [exact Hsend|]. split; [reflexivity|].
  split; [exact Hlen|]. split; [exact (H1 Hrm)|exact (H2 Hsend eq_refl Hlen)].
Defined.

Lemma chat_line_is_dispatched_witness :
  let ev := chat "A" "<@!42> subscribe" in
  Forall (fun w => isWord w = true) (MentionBot (conn' fresh) :: ["subscribe"]) /\
  Message ev = Go.Join (MentionBot (conn' fresh) :: ["subscribe"]) " " /\
  calls (conn' (fst (handleChatMessageEvent ok200 plain ev fresh))) =
    [Send "A" "missing server address, see --help for usage details"].
Proof.
  intros ev.
  assert (Hw : Forall (fun w => isWord w = true)
                 (MentionBot (conn' fresh) :: ["subscribe"]))
    by (repeat constructor).
  split; [exact Hw|]. split; [reflexivity|].
  now rewrite (chat_line_is_dispatched ok200 plain ev fresh ["subscribe"] Hw eq_refl).
Defined.

Lemma chat_publish_witness :
  let ev := chat "A" "<@!42> send alerts disk is --full" in
  Forall (fun w => isWord w = true)
         (MentionBot (conn' fresh) :: "send" :: "alerts" :: "disk" :: ["is"; "--full"]) /\
  In "send" ["publish"; "send"] /\ isFlag "alerts" = false /\
  plainURL (config.BaseURL (config fresh) +:+ "/" +:+ "alerts") = true /\
  client.requests (client (fst (handleChatMessageEvent ok200 plain ev fresh))) =
    [{| client.Method := "POST"; client.URL := "https://ntfy.sh/alerts";
        client.Body := "disk is --full"; client.Header := ∅ |}].
Proof.
  intros ev.
  assert (Hw : Forall (fun w => isWord w = true)
                 (MentionBot (conn' fresh) :: "send" :: "alerts" :: "disk" :: ["is"; "--full"]))
    by (repeat constructor).
  assert (Hin : In "send" ["publish"; "send"]) by (simpl; tauto).
  split; [exact Hw|]. split; [exact Hin|]. split; [reflexivity|].
  split; [reflexivity|].
  exact (chat_publish ok200 plain ev fresh "send" "alerts" "disk" ["is"; "--full"]
           Hw Hin eq_refl eq_refl eq_refl).
Defined.

End MoreEvaluated.

(** ** Acknowledgements *)

Section Acknowledgements.

Import bot registry.

Variable Do : list client.Request -> client.Request -> client.DoResult.
Variable render : cli.chunk -> string.

Implicit Types (b : Bot) (c : cli.Context) (ev : messageEvent).

(** X20: a subscribe or unsubscribe that has its topic makes exactly one
    call to the chat platform, the thumbs-up reaction to the message that
    carried the command, and returns what the platform answers to it. *)
Theorem commands_acknowledge c ev b :
  1 <= cli.NArg c ->
  let ack := React (Channel ev) (ID ev) thumbsUp in
  (calls (conn' (fst (execSubscribe c ev b))) = calls (conn' b) ++ [ack] /\
   snd (execSubscribe c ev b) = answer (conn' b) (calls (conn' b)) ack) /\
  (calls (conn' (fst (execUnsubscribe c ev b))) = calls (conn' b) ++ [ack] /\
   snd (execUnsubscribe c ev b) = answer (conn' b) (calls (conn' b)) ack).
Proof.
  intros Hn ack. split; [|apply (execUnsubscribe_reacts c ev b Hn)].
  unfold execSubscribe. rewrite (NArg_ltb _ _ Hn).
  now destruct (subscriptions b !! _).
Qed.

(** X21: a publish with topic and message, to a URL that parses, never
    touches the registry.  It
    is acknowledged with the thumbs-up reaction exactly when the server
    answers with a status below 300; when the request fails, or the status
    is 300 or more, no call to the chat platform is made by the command and
    the error is returned (the dispatcher then sends its text). *)
Theorem execPublish_outcome c ev b :
  2 <= cli.NArg c ->
  plainURL (cli.String c "server" +:+ "/" +:+ cli.First c) = true ->
  let req :=
    fst (client.applyOptions
           [client.WithTitle (cli.String c "title");
            client.WithPriority (cli.String c "priority");
            client.WithTags (cli.String c "tags")]
           {| client.Method := "POST";
              client.URL := cli.String c "server" +:+ "/" +:+ cli.First c;
              client.Body := Go.Join (tail (cli.Args c)) " ";
              client.Header := ∅ |}) in
  let ack := React (Channel ev) (ID ev) thumbsUp in
  let b' := fst (execPublish Do c ev b) in
  core b' = core b /\
  match Do (client.requests (client b)) req with
  | client.DoError err =>
      calls (conn' b') = calls (conn' b) /\ snd (execPublish Do c ev b) = Some err
  | client.Response code =>
      if (code <? 300)%Z
      then calls (conn' b') = calls (conn' b) ++ [ack] /\
           snd (execPublish Do c ev b) = answer (conn' b) (calls (conn' b)) ack
      else calls (conn' b') = calls (conn' b) /\
           snd (execPublish Do c ev b) =
             Some ("unexpected response " +:+ Go.itoa code +:+ " from server")
  end.
Proof.
  intros Hn _ req ack b'. split; [apply core_execPublish|].
  unfold b', req, execPublish. rewrite (NArg_ltb _ _ Hn). unfold client.Publish.
  match goal with |- context [client.applyOptions ?o ?r] =>
    pose proof (applyOptions_bot (cli.String c "title") (cli.String c "priority")
                  (cli.String c "tags") r) as Hnone;
    destruct (client.applyOptions o r) as [req' e] end.
  simpl in Hnone. subst e. simpl.
  destruct (Do _ _) as [err|code]; [now split|].
  destruct (Z.ltb_spec code 300) as [Hlt|Hge].
  - assert ((299 <? code)%Z = false) as -> by (apply Z.ltb_ge; lia). now split.
  - assert ((299 <? code)%Z = true) as -> by (apply Z.ltb_lt; lia). now split.
Qed.

End Acknowledgements.

Section AcknowledgementsEvaluated.

Import bot registry.

Lemma commands_acknowledge_witness :
  let c := topicOnly fresh "mytopic" in
  let ev := chat "A" "<@!42> subscribe mytopic" in
  1 <= cli.NArg c /\
  calls (conn' (fst (execSubscribe c ev fresh))) = [React "A" "m1" thumbsUp] /\
  snd (execSubscribe c ev fresh) = None.
Proof.
  intros c ev.
  assert (Hn : 1 <= cli.NArg c) by (cbv; lia).
  destruct (commands_acknowledge c ev fresh Hn) as ((H1 & H2) & _).
  split; [exact Hn|]. split; [exact H1|exact H2].
Defined.

Lemma execPublish_outcome_witness :
  let unavailable : list client.Request -> client.Request -> client.DoResult :=
    fun _ _ => client.Response 503 in
  let c := plainContext (publishFlags fresh) ["mytopic"; "hello"] in
  let ev := chat "A" "<@!42> publish mytopic hello" in
  2 <= cli.NArg c /\
  plainURL (cli.String c "server" +:+ "/" +:+ cli.First c) = true /\
  calls (conn' (fst (execPublish unavailable c ev fresh))) = [] /\
  snd (execPublish unavailable c ev fresh) =
    Some "unexpected response 503 from server" /\
  calls (conn' (fst (execPublish ok200 c ev fresh))) = [React "A" "m1" thumbsUp].
Proof.
  intros unavailable c ev.
  assert (Hn : 2 <= cli.NArg c) by (cbv; lia).
  assert (Hu : plainURL (cli.String c "server" +:+ "/" +:+ cli.First c) = true)
    by reflexivity.
  destruct (execPublish_outcome unavailable c ev fresh Hn Hu) as [_ H503].
  destruct (execPublish_outcome ok200 c ev fresh Hn Hu) as [_ H200].
  split; [exact Hn|]. split; [exact Hu|].
  split; [exact (proj1 H503)|]. split; [exact (proj2 H503)|exact (proj1 H200)].
Defined.

End AcknowledgementsEvaluated.
